(** * sanic_session.mongodb: the MongoDB session interface

    A shallow embedding of [src/sanic_session/mongodb.py].  The class
    [MongoDBSessionInterface] is glue between the session base class and a
    MongoDB collection reached through [sanic_motor]: the constructor
    forwards its keyword arguments to the base class and registers a start-up
    listener that creates two indexes; [_get_value], [_delete_key] and
    [_set_value] are one awaited call each on the model class.

    The file has four layers:
    - the values the code handles and documents, which are Python dicts
      from field names to values, with the driver's BSON codec;
    - a collection and the calls the driver makes on it ([find_one],
      [delete_one], [replace_one], [create_index]), and the engine's TTL
      monitor;
    - the database, a finite map from collection names to collections, and
      the model class [BaseModel], whose methods act on the collection named
      by [__coll__];
    - the interface itself, translated method by method. *)

From Stdlib Require Import ZArith String List Lia.
From stdpp Require Import gmap strings list fin_maps.

Local Open Scope Z_scope.
Local Open Scope string_scope.
Local Open Scope list_scope.

(** ** Values *)

(** The Python objects the interface receives and stores.  [VDatetime]
    carries a [datetime] as its number of microseconds since the epoch
    ([datetime] has microsecond resolution); [VObjectId] is the key the
    engine gives a document it inserts. *)
Inductive value :=
  | VNone
  | VBool (b : bool)
  | VInt (n : Z)
  | VStr (s : string)
  | VBytes (b : list Byte.byte)
  | VDatetime (us : Z)
  | VObjectId (n : N).

#[global] Instance byte_eq_dec : EqDecision Byte.byte := Byte.byte_eq_dec.

#[global] Instance value_eq_dec : EqDecision value.
Proof. solve_decision. Defined.

(** [x is True]: identity with the singleton [True]; [1 is True] is false. *)
Definition is_True (x : value) : bool :=
  match x with
  | VBool true => true
  | _ => false
  end.

(** A document is a dict from field names to values. *)
Abbreviation document := (gmap string value).

(** Truth value of a dict: a dict is falsy exactly when it is empty. *)
Definition truthy (d : document) : bool := negb (bool_decide (d = ∅)).

(** [d.get(k)]: the value under [k], [None] when the key is missing. *)
Definition dict_get (k : string) (d : document) : value :=
  default VNone (d !! k).

(** ** Exceptions and results *)

Inductive exception :=
  | RuntimeError (msg : string)
  | OverflowError
  | OperationFailure (msg : string).

Inductive result (A : Type) :=
  | Ok (a : A)
  | Raise (e : exception).

Arguments Ok {A} a.
Arguments Raise {A} e.

(** ** Dates *)

(** [datetime.min] and [datetime.max], in microseconds since the epoch:
    0001-01-01 00:00:00 and 9999-12-31 23:59:59.999999. *)
Definition datetime_min : Z := -62135596800000000.
Definition datetime_max : Z := 253402300799999999.

(** [timedelta(seconds=n)], in microseconds.  A [timedelta] holds at most
    999999999 days either way; beyond that the constructor raises
    [OverflowError]. *)
Definition timedelta (seconds : Z) : result Z :=
  if bool_decide (-999999999 <= seconds / 86400 <= 999999999)
  then Ok (seconds * 1000000)
  else Raise OverflowError.

(** [datetime + timedelta]: [OverflowError] when the sum leaves the range
    of [datetime]. *)
Definition datetime_add (d delta : Z) : result Z :=
  if bool_decide (datetime_min <= d + delta <= datetime_max)
  then Ok (d + delta)
  else Raise OverflowError.

(** ** The BSON codec of the driver *)

(** What the driver sends for a value, and so what is read back: a
    [datetime] goes as whole milliseconds since the epoch, the microseconds
    below the millisecond are dropped; the other values go as they are. *)
Definition bson_image (v : value) : value :=
  match v with
  | VDatetime us => VDatetime (us / 1000 * 1000)
  | _ => v
  end.

(** An [int] must fit in eight bytes; the codec raises [OverflowError] on a
    larger one. *)
Definition encodable (v : value) : bool :=
  match v with
  | VInt n => bool_decide (- 2 ^ 63 <= n < 2 ^ 63)
  | _ => true
  end.

(** A document through the codec: every value as the driver sends it, or
    [OverflowError] when one of them cannot be sent. *)
Definition bson_encode (d : document) : result document :=
  if bool_decide (map_Forall (fun _ v => encodable v = true) d)
  then Ok (bson_image <$> d)
  else Raise OverflowError.

(** ** State, results and awaited calls *)

(** A call that reads and updates a state and returns a value or raises.
    When a call raises, the rest of the coroutine is skipped and the state
    stays as the call left it. *)
Definition stateful (S A : Type) : Type := S -> result A * S.

Definition ret {S A} (a : A) : stateful S A := fun s => (Ok a, s).

Definition bind {S A B} (m : stateful S A) (k : A -> stateful S B)
  : stateful S B :=
  fun s =>
    match m s with
    | (Ok a, s') => k a s'
    | (Raise e, s') => (Raise e, s')
    end.

(** A computation that touches no state. *)
Definition lift {S A} (r : result A) : stateful S A := fun s => (r, s).

Notation "x <~ m ;; k" := (bind m (fun x => k))
  (at level 100, m at next level, right associativity).

Definition eval {S A} (m : stateful S A) (s : S) : result A := fst (m s).

Definition exec {S A} (m : stateful S A) (s : S) : S := snd (m s).

(** ** A document collection *)

(** The calls the interface makes on [_SessionModel] reach a MongoDB
    collection through [sanic_motor] and the driver, which are no part of
    this repository.  They are given here by their documented behaviour on a
    collection that answers every call; a lost connection or a time-out,
    which the interface would let through to its caller, is not modelled. *)

(** An index of the collection: its name, the field it is on and, for a TTL
    index, the [expireAfterSeconds] option. *)
Record index := Index {
  ix_name : string;
  ix_field : string;
  ix_expireAfterSeconds : option Z
}.

#[global] Instance index_eq_dec : EqDecision index.
Proof. solve_decision. Defined.

(** The state of a collection: its documents in natural order and its
    indexes. *)
Record collection := Collection {
  documents : list document;
  indexes : list index
}.

#[global] Instance collection_eq_dec : EqDecision collection.
Proof. solve_decision. Defined.

Definition id_field : string := "_id".

(** The primary-key index every collection is created with. *)
Definition id_index : index := Index "_id_" id_field None.

Definition empty_collection : collection := Collection [] [id_index].

Definition set_documents (c : collection) (ds : list document) : collection :=
  Collection ds (indexes c).

(** A call on one collection. *)
Abbreviation M := (stateful collection).

(** A query filter is a document of field/value pairs; the code only uses
    equality on a string-valued field, for which a document matches when it
    carries every pair of the filter. *)
Definition matches (flt doc : document) : Prop := flt ⊆ doc.

#[global] Instance matches_dec flt doc : Decision (matches flt doc).
Proof. unfold matches. apply _. Defined.

(** [find_one(filter)]: the first matching document as a dict, [None] when
    there is none.  The filter goes through the codec. *)
Definition find_one (flt : document) : M (option document) :=
  fun c =>
    match bson_encode flt with
    | Ok flt => (Ok (snd <$> list_find (matches flt) (documents c)), c)
    | Raise e => (Raise e, c)
    end.

(** [delete_one(filter)]: removes the first matching document, if any. *)
Definition delete_one (flt : document) : M unit :=
  fun c =>
    match bson_encode flt with
    | Ok flt =>
        match list_find (matches flt) (documents c) with
        | Some (i, _) => (Ok tt, set_documents c (delete i (documents c)))
        | None => (Ok tt, c)
        end
    | Raise e => (Raise e, c)
    end.

(** The document that takes the place of [old] in a replacement: the
    replacement with the [_id] of the document it replaces. *)
Definition keep_id (old replacement : document) : document :=
  match old !! id_field with
  | Some oid => <[id_field := oid]> replacement
  | None => replacement
  end.

(** [replace_one(filter, replacement, upsert=...)].  Filter and replacement
    go through the codec, which raises before anything reaches the engine.
    The first matching document is replaced as a whole, in place; when none
    matches and [upsert] is set, the replacement is inserted under the
    ObjectId [oid].  An ObjectId is made anew for every insert: [oid] stands
    for the one made for this call, and nothing is assumed of it. *)
Definition replace_one (flt replacement : document) (upsert : bool) (oid : N)
  : M unit :=
  fun c =>
    match bson_encode flt, bson_encode replacement with
    | Ok flt, Ok replacement =>
        match list_find (matches flt) (documents c) with
        | Some (i, old) =>
            (Ok tt,
             set_documents c (<[i := keep_id old replacement]> (documents c)))
        | None =>
            if upsert then
              (Ok tt,
               set_documents c
                 (documents c ++ [<[id_field := VObjectId oid]> replacement]))
            else (Ok tt, c)
        end
    | Raise e, _ => (Raise e, c)
    | _, Raise e => (Raise e, c)
    end.

(** [create_index(field, expireAfterSeconds=...)]: the index is named after
    its field.  Creating an index that exists with the same options does
    nothing; the name of an existing index with other options is a conflict;
    otherwise the index is added. *)
Definition create_index (field : string) (expireAfterSeconds : option Z) : M string :=
  fun c =>
    let ix := Index (String.append field "_1") field expireAfterSeconds in
    if bool_decide (ix ∈ indexes c) then (Ok (ix_name ix), c)
    else if bool_decide (ix_name ix ∈ ix_name <$> indexes c) then
      (Raise (OperationFailure "IndexOptionsConflict"), c)
    else (Ok (ix_name ix), Collection (documents c) (indexes c ++ [ix])).

(** The engine's TTL monitor.  A document is past due at [now] for a TTL
    index when the indexed field holds a date and that date plus the
    index's [expireAfterSeconds] is not after [now]. *)
Definition past_due (now : Z) (doc : document) (ix : index) : bool :=
  match ix_expireAfterSeconds ix, doc !! ix_field ix with
  | Some secs, Some (VDatetime t) => bool_decide (t + secs * 1000000 <= now)
  | _, _ => false
  end.

Definition expired (ixs : list index) (now : Z) (doc : document) : bool :=
  existsb (past_due now doc) ixs.

(** One pass of the monitor over a collection at time [now]: every expired
    document goes. *)
Definition ttl_monitor (now : Z) (c : collection) : collection :=
  set_documents c
    (filter (fun doc => expired (indexes c) now doc = false) (documents c)).

(** ** The database and the model class *)

(** The database holds the collections that exist, by name. *)
Abbreviation database := (gmap string collection).

(** A collection that does not exist reads as an empty one. *)
Definition get_collection (name : string) (db : database) : collection :=
  default empty_collection (db !! name).

Abbreviation DB := (stateful database).

(** The collection [name] takes the state [c]; a collection that does not
    exist comes into being when it is first given a state other than the
    empty one. *)
Definition put_collection (name : string) (c : collection) (db : database)
  : database :=
  if bool_decide (c = get_collection name db) then db else <[name := c]> db.

(** A call on the collection [name]: the collection takes the state the
    call leaves. *)
Definition on_collection {A} (name : string) (m : M A) : DB A :=
  fun db =>
    let (r, c) := m (get_collection name db) in
    (r, put_collection name c db).

(** The monitor passes over every collection. *)
Definition ttl_pass (now : Z) (db : database) : database :=
  ttl_monitor now <$> db.

(** [sanic_motor.BaseModel]: a model class is known by [__coll__], the name
    of its collection, and each of its methods is the driver's call on that
    collection.  [find_one] is the call with [as_raw=True], which returns
    the document as a dict. *)
Module BaseModel.

Definition find_one (__coll__ : string) (flt : document) : DB (option document) :=
  on_collection __coll__ (find_one flt).

Definition delete_one (__coll__ : string) (flt : document) : DB unit :=
  on_collection __coll__ (delete_one flt).

Definition replace_one (__coll__ : string) (flt replacement : document)
    (upsert : bool) (oid : N) : DB unit :=
  on_collection __coll__ (replace_one flt replacement upsert oid).

Definition create_index (__coll__ : string) (field : string)
    (expireAfterSeconds : option Z) : DB string :=
  on_collection __coll__ (create_index field expireAfterSeconds).

End BaseModel.

(** ** The host application *)

(** A listener is a coroutine run against the database. *)
Definition listener : Type := DB unit.

(** The Sanic application, as far as the interface uses it: the listeners
    registered with [app.listener(event)], in registration order. *)
Record Sanic := { listeners : list (string * listener) }.

(** [app.listener(event)(f)]. *)
Definition register_listener (event : string) (f : listener) (app : Sanic) : Sanic :=
  {| listeners := listeners app ++ [(event, f)] |}.

(** The application fires an event: its listeners run in registration
    order, and the first exception stops the run. *)
Fixpoint run_listeners (ls : list (string * listener)) (event : string) : DB unit :=
  match ls with
  | [] => ret tt
  | (e, f) :: rest =>
      if bool_decide (e = event) then (_ <~ f ;; run_listeners rest event)
      else run_listeners rest event
  end.

Definition trigger (app : Sanic) (event : string) : DB unit :=
  run_listeners (listeners app) event.

(** ** Warnings *)

Inductive warning_category := DeprecationWarning | UserWarning.

Record warning := Warning { message : string; category : warning_category }.

#[global] Instance warning_category_eq_dec : EqDecision warning_category.
Proof. solve_decision. Defined.

#[global] Instance warning_eq_dec : EqDecision warning.
Proof. solve_decision. Defined.

(** ** The base interface *)

Module BaseSessionInterface.

(** Modelled from the spec: [sanic_session.base.BaseSessionInterface] is
    not among the sources.  The constructor of the base interface receives
    the configuration "forwarded verbatim" and keeps each value as the
    attribute of the same name; [_set_value] reads [self.expiry] back. *)
Record t := {
  expiry : Z;
  prefix : string;
  cookie_name : string;
  domain : option string;
  httponly : value;
  sessioncookie : bool;
  samesite : option string;
  session_name : string
}.

Definition __init__ (expiry : Z) (prefix cookie_name : string)
    (domain : option string) (httponly : value) (sessioncookie : bool)
    (samesite : option string) (session_name : string) : t :=
  {| expiry := expiry; prefix := prefix; cookie_name := cookie_name;
     domain := domain; httponly := httponly; sessioncookie := sessioncookie;
     samesite := samesite; session_name := session_name |}.

End BaseSessionInterface.

(** ** MongoDBSessionInterface *)

Definition expiry_field : string := "expiry".
Definition sid_field : string := "sid".
Definition data_field : string := "data".

(** An instance: the attributes the base constructor set, and
    [SessionModel], the model class [_SessionModel] of the instance, given
    by its [__coll__]. *)
Record MongoDBSessionInterface := {
  base : BaseSessionInterface.t;
  SessionModel : string
}.

(** Defaults of the keyword arguments of [__init__]. *)
Definition default_coll : string := "session".
Definition default_domain : option string := None.
Definition default_expiry : Z := 30 * 24 * 60 * 60.
Definition default_httponly : value := VBool true.
Definition default_cookie_name : string := "session".
Definition default_sessioncookie : bool := false.
Definition default_samesite : option string := None.
Definition default_session_name : string := "session".

(** The text of the warning of [__init__]. *)
Definition httponly_message : string :=
"
                httponly default arg has changed.
                To spare you some debugging time, httponly is currently
                hardcoded as True. This message will be removed with the
                next release. And ``httponly`` will no longer be hardcoded
            ".

Definition missing_dependency : exception :=
  RuntimeError
    "Please install Mongo dependencies: pip install sanic_session[mongo]".

(** The listener [apply_session_indexes] that [__init__] defines.  It
    closes over the model class [_SessionModel] of the instance: an index on
    [sid], then a TTL index on [expiry] with [expireAfterSeconds=0], both on
    the collection of that model. *)
Definition apply_session_indexes (_SessionModel : string) : listener :=
  _ <~ BaseModel.create_index _SessionModel sid_field None ;;
  _ <~ BaseModel.create_index _SessionModel expiry_field (Some 0) ;;
  ret tt.

(** [__init__].  [sanic_motor] tells whether [from sanic_motor import
    BaseModel] succeeds.  The constructor returns the instance, the
    application with the listener registered, and the warnings it issued
    with [warnings.warn]. *)
Definition __init__ (sanic_motor : bool) (app : Sanic) (coll : string)
    (domain : option string) (expiry : Z) (httponly : value)
    (cookie_name : string) (sessioncookie : bool) (samesite : option string)
    (session_name : string)
  : result (MongoDBSessionInterface * Sanic * list warning) :=
  if negb sanic_motor then Raise missing_dependency
  else
    let _SessionModel := coll in
    let prefix := EmptyString in
    let warnings :=
      if negb (is_True httponly)
      then [Warning httponly_message DeprecationWarning]
      else [] in
    let super :=
      BaseSessionInterface.__init__ expiry prefix cookie_name domain
        (VBool true) sessioncookie samesite session_name in
    let self := {| base := super; SessionModel := _SessionModel |} in
    let app :=
      register_listener "after_server_start"
        (apply_session_indexes _SessionModel) app in
    Ok (self, app, warnings).

(** [_get_value(prefix, key)]. *)
Definition _get_value (self : MongoDBSessionInterface) (prefix key : string)
  : DB value :=
  value <~ BaseModel.find_one (SessionModel self) {[ sid_field := VStr key ]} ;;
  ret match value with
      | Some d => if truthy d then dict_get data_field d else VNone
      | None => VNone
      end.

(** [_delete_key(key)]. *)
Definition _delete_key (self : MongoDBSessionInterface) (key : string) : DB unit :=
  BaseModel.delete_one (SessionModel self) {[ sid_field := VStr key ]}.

(** The dict literal of [_set_value]. *)
Definition session_document (key : string) (expiry : Z) (data : value) : document :=
  <[data_field := data]>
    (<[expiry_field := VDatetime expiry]>
       (<[sid_field := VStr key]> ∅)).

(** [_set_value(key, data)]; [utcnow] is what [datetime.utcnow()] reads and
    [oid] the ObjectId made for the document, should it be inserted. *)
Definition _set_value (self : MongoDBSessionInterface) (utcnow : Z) (oid : N)
    (key : string) (data : value) : DB unit :=
  delta <~ lift (timedelta (BaseSessionInterface.expiry (base self))) ;;
  expiry <~ lift (datetime_add utcnow delta) ;;
  BaseModel.replace_one (SessionModel self)
    {[ sid_field := VStr key ]} (session_document key expiry data) true oid.

(** ** Histories *)

(** What can happen to the database of a running application: the store
    methods of the interface, the start-up listener, and a pass of the
    engine's TTL monitor. *)
Inductive event :=
  | EvSet (utcnow : Z) (oid : N) (key : string) (data : value)
  | EvDelete (key : string)
  | EvStartup
  | EvTTL (now : Z).

Definition step (self : MongoDBSessionInterface) (ev : event) (db : database)
  : database :=
  match ev with
  | EvSet utcnow oid key data => exec (_set_value self utcnow oid key data) db
  | EvDelete key => exec (_delete_key self key) db
  | EvStartup => exec (apply_session_indexes (SessionModel self)) db
  | EvTTL now => ttl_pass now db
  end.

Definition run (self : MongoDBSessionInterface) (evs : list event) (db : database)
  : database :=
  fold_left (fun db ev => step self ev db) evs db.

(** An instance built with the defaults of the keyword arguments. *)
Definition example_self : MongoDBSessionInterface :=
  {| base := BaseSessionInterface.__init__ default_expiry EmptyString default_cookie_name
               default_domain (VBool true) default_sessioncookie default_samesite
               default_session_name;
     SessionModel := default_coll |}.

(** A collection in which two documents share a sid, as another client of
    the database could leave it; the interface itself never builds one. *)
Definition two_under_one_sid : collection :=
  Collection
    [ {[ "sid" := VStr "k"; "data" := VStr "a" ]};
      {[ "sid" := VStr "k"; "data" := VStr "b" ]} ]
    [id_index].

(** A collection whose [expiry] index was created with other options. *)
Definition other_expiry_index : collection :=
  Collection [] [id_index; Index "expiry_1" "expiry" (Some 3600)].

(** The database that holds [c] as the collection of [self]. *)
Definition database_of (self : MongoDBSessionInterface) (c : collection)
  : database :=
  {[ SessionModel self := c ]}.

(** ** Vocabulary of the statements *)

(** The collection of an instance. *)
Definition session_collection (self : MongoDBSessionInterface) (db : database)
  : collection :=
  get_collection (SessionModel self) db.

(** The documents a filter [{sid: key}] selects. *)
Definition has_sid (key : string) (doc : document) : Prop :=
  doc !! sid_field = Some (VStr key).

#[global] Instance has_sid_dec key doc : Decision (has_sid key doc).
Proof. unfold has_sid. apply _. Defined.

(** What [find_one({sid: key})] finds in a collection. *)
Definition stored (key : string) (c : collection) : option document :=
  snd <$> list_find (matches {[ sid_field := VStr key ]}) (documents c).

(** An event disturbs the record under [key] when it writes or deletes
    under that key, or is a TTL pass at which the record is expired. *)
Definition disturbs (self : MongoDBSessionInterface) (key : string) (ev : event)
    (db : database) : bool :=
  match ev with
  | EvSet _ _ k _ => bool_decide (k = key)
  | EvDelete k => bool_decide (k = key)
  | EvStartup => false
  | EvTTL now =>
      match stored key (session_collection self db) with
      | Some d => expired (indexes (session_collection self db)) now d
      | None => false
      end
  end.

(** No event of the history disturbs the record under [key], each event
    taken in the database it runs on. *)
Fixpoint undisturbed (self : MongoDBSessionInterface) (key : string)
    (evs : list event) (db : database) : bool :=
  match evs with
  | [] => true
  | ev :: rest =>
      negb (disturbs self key ev db) && undisturbed self key rest (step self ev db)
  end.

(** At most one document per sid. *)
Definition sid_unique (c : collection) : Prop :=
  forall key, (length (filter (has_sid key) (documents c)) <= 1)%nat.

(** The expiry [_set_value] computes at clock reading [utcnow]. *)
Definition expiry_at (self : MongoDBSessionInterface) (utcnow : Z) : Z :=
  utcnow + BaseSessionInterface.expiry (base self) * 1000000.

(** The document [_set_value] sends, as the collection holds it: the dict
    literal through the codec. *)
Definition stored_document (self : MongoDBSessionInterface) (utcnow : Z)
    (key : string) (data : value) : document :=
  session_document key (expiry_at self utcnow / 1000 * 1000) (bson_image data).

(** [_set_value] returns normally on these inputs: the [timedelta] and the
    expiry are in range and the data fits the codec. *)
Definition writable (self : MongoDBSessionInterface) (utcnow : Z) (data : value)
  : bool :=
  bool_decide
    (-999999999 <= BaseSessionInterface.expiry (base self) / 86400 <= 999999999)
  && bool_decide (datetime_min <= expiry_at self utcnow <= datetime_max)
  && encodable data.

(** Every document of the collection is what a write of the history [evs]
    stored, under an [_id] of the engine. *)
Definition written (self : MongoDBSessionInterface) (evs : list event)
    (c : collection) : Prop :=
  forall d, d ∈ documents c ->
    exists n utcnow oid key data,
      EvSet utcnow oid key data ∈ evs /\
      d = <[id_field := VObjectId n]> (stored_document self utcnow key data).

(** The two calls of the start-up listener, on the collection itself. *)
Definition create_session_indexes : M unit :=
  _ <~ create_index sid_field None ;;
  _ <~ create_index expiry_field (Some 0) ;;
  ret tt.

(** The two indexes of the start-up listener. *)
Definition sid_index : index := Index "sid_1" "sid" None.
Definition expiry_index : index := Index "expiry_1" "expiry" (Some 0).

(** * Proofs *)

(** ** First matches in a list *)

Section first_match.
Context {A : Type} (P : A -> Prop) `{!forall x, Decision (P x)}.

(** A first match splits the list around it. *)
Lemma list_find_split (l : list A) i x :
  list_find P l = Some (i, x) ->
  exists l1 l2,
    l = l1 ++ x :: l2 /\ length l1 = i /\ P x /\ filter P l1 = [].
Proof.
  revert i. induction l as [|y l IH]; intros i; csimpl; [done|].
  case_decide as Hy.
  - intros [= <- <-]. by exists [], l.
  - destruct (list_find P l) as [[j z]|] eqn:Hf; [|done].
    intros [= <- <-].
    destruct (IH j eq_refl) as (l1 & l2 & -> & <- & Hz & Hl1).
    exists (y :: l1), l2. split_and!; [done..|].
    by rewrite filter_cons_False.
Qed.

Lemma list_find_None_filter (l : list A) :
  list_find P l = None -> filter P l = [].
Proof.
  rewrite list_find_None. induction 1 as [|y l Hy _ IH]; [done|].
  by rewrite filter_cons_False.
Qed.

(** [find] reads the head of the matching sublist. *)
Lemma list_find_head (l : list A) :
  snd <$> list_find P l = head (filter P l).
Proof.
  destruct (list_find P l) as [[i x]|] eqn:Hf.
  - destruct (list_find_split _ _ _ Hf) as (l1 & l2 & -> & _ & Hx & Hl1).
    by rewrite filter_app, Hl1, filter_cons_True.
  - by rewrite list_find_None_filter.
Qed.

Lemma insert_middle_eq (l1 l2 : list A) x y :
  <[length l1 := y]> (l1 ++ x :: l2) = l1 ++ y :: l2.
Proof. by rewrite insert_app_r_alt, Nat.sub_diag by lia. Qed.

Lemma filter_nil_list_find (l : list A) :
  filter P l = [] -> list_find P l = None.
Proof.
  intros Hnil. apply list_find_None, Forall_forall. intros x Hx HP.
  by apply (filter_nil_not_elem_of P l x).
Qed.

Lemma list_find_middle (l1 l2 : list A) x :
  filter P l1 = [] -> P x ->
  list_find P (l1 ++ x :: l2) = Some (length l1, x).
Proof.
  intros Hnil HP.
  rewrite list_find_app_r by by apply filter_nil_list_find.
  simpl. by rewrite decide_True.
Qed.
End first_match.

Section filters.
Context {A : Type} (P Q : A -> Prop)
  `{!forall x, Decision (P x)} `{!forall x, Decision (Q x)}.

Lemma head_filter_filter (l : list A) d :
  head (filter P l) = Some d -> Q d -> head (filter P (filter Q l)) = Some d.
Proof.
  intros Hh Hd. induction l as [|y l IH]; [done|].
  destruct (decide (P y)) as [Hy|Hy].
  - rewrite filter_cons_True in Hh by done. simplify_eq/=.
    by rewrite !filter_cons_True.
  - rewrite filter_cons_False in Hh by done.
    destruct (decide (Q y)).
    + rewrite filter_cons_True, filter_cons_False by done. auto.
    + rewrite filter_cons_False by done. auto.
Qed.

Lemma length_filter_filter (l : list A) :
  (length (filter P (filter Q l)) <= length (filter P l))%nat.
Proof.
  rewrite list_filter_filter.
  induction l as [|y l IH]; [done|].
  destruct (decide (P y)) as [Hy|Hy].
  - rewrite (filter_cons_True P) by done. simpl.
    destruct (decide (Q y)).
    + rewrite filter_cons_True by done. simpl. lia.
    + rewrite filter_cons_False by tauto. lia.
  - rewrite (filter_cons_False P) by done.
    rewrite filter_cons_False by tauto. done.
Qed.

(** A sublist selected by [P] is read off the sublist selected by [Q]
    when [P] implies [Q]. *)
Lemma filter_within (l : list A) :
  (forall x, P x -> Q x) -> filter P (filter Q l) = filter P l.
Proof.
  intros HPQ. rewrite list_filter_filter. apply list_filter_iff.
  intros x. split; [by intros [? _]|auto].
Qed.

Lemma filter_comm (l : list A) :
  filter P (filter Q l) = filter Q (filter P l).
Proof. rewrite !list_filter_filter. apply list_filter_iff. tauto. Qed.
End filters.

(** ** The monad *)

Lemma bind_unfold {S A B} (m : stateful S A) (k : A -> stateful S B) s :
  bind m k s =
    match m s with
    | (Ok a, s') => k a s'
    | (Raise e, s') => (Raise e, s')
    end.
Proof. reflexivity. Qed.

Lemma bind_assoc {S A B C} (m : stateful S A) (k : A -> stateful S B)
    (h : B -> stateful S C) s :
  bind (bind m k) h s = bind m (fun a => bind (k a) h) s.
Proof. unfold bind. by destruct (m s) as [[a|e] s']. Qed.

(** ** Documents, filters and the codec *)

Lemma matches_sid key doc :
  matches {[ sid_field := VStr key ]} doc <-> has_sid key doc.
Proof. apply map_singleton_subseteq_l. Qed.

Lemma find_sid key (ds : list document) :
  list_find (matches {[ sid_field := VStr key ]}) ds = list_find (has_sid key) ds.
Proof. apply list_find_ext, matches_sid. Qed.

Lemma has_sid_inj key key' doc : has_sid key doc -> has_sid key' doc -> key = key'.
Proof. unfold has_sid. congruence. Qed.

Lemma has_sid_truthy key doc : has_sid key doc -> truthy doc = true.
Proof.
  unfold has_sid, truthy. intros H. rewrite bool_decide_eq_false_2; [done|].
  intros ->. by rewrite lookup_empty in H.
Qed.

Lemma session_document_lookup key e data f :
  session_document key e data !! f =
    if bool_decide (f = sid_field) then Some (VStr key)
    else if bool_decide (f = expiry_field) then Some (VDatetime e)
    else if bool_decide (f = data_field) then Some data
    else None.
Proof.
  unfold session_document.
  repeat (case_bool_decide; simplify_map_eq; try done).
Qed.

Lemma session_document_literal key e data :
  session_document key e data
  = {[ "sid" := VStr key; "expiry" := VDatetime e; "data" := data ]}.
Proof.
  apply map_eq. intros f. rewrite session_document_lookup.
  unfold data_field, expiry_field, sid_field.
  rewrite !lookup_insert, lookup_singleton.
  repeat case_decide; subst; try done.
  all: repeat case_bool_decide; congruence.
Qed.

(** The filter [{sid: key}] goes through the codec as it is. *)
Lemma bson_encode_sid_filter key :
  bson_encode {[ sid_field := VStr key ]} = Ok {[ sid_field := VStr key ]}.
Proof.
  unfold bson_encode. rewrite bool_decide_eq_true_2.
  - by rewrite map_fmap_singleton.
  - by apply map_Forall_singleton.
Qed.

(** The dict literal of [_set_value] through the codec: the expiry loses
    what is below the millisecond, and an [int] past eight bytes as data
    makes the codec raise. *)
Lemma bson_encode_session_document key e data :
  bson_encode (session_document key e data) =
    if encodable data
    then Ok (session_document key (e / 1000 * 1000) (bson_image data))
    else Raise OverflowError.
Proof.
  unfold bson_encode, session_document.
  destruct (encodable data) eqn:Henc.
  - rewrite bool_decide_eq_true_2.
    + by rewrite !fmap_insert, fmap_empty.
    + repeat (apply map_Forall_insert_2; [done|]). apply map_Forall_empty.
  - rewrite bool_decide_eq_false_2; [done|].
    intros Hall. specialize (Hall data_field data). simpl in Hall.
    rewrite lookup_insert_eq in Hall. specialize (Hall eq_refl). congruence.
Qed.

Lemma keep_id_lookup old new f :
  f <> id_field -> keep_id old new !! f = new !! f.
Proof.
  intros Hf. unfold keep_id. destruct (old !! id_field); [|done].
  by rewrite lookup_insert_ne.
Qed.

Lemma keep_id_body old key e data :
  delete id_field (keep_id old (session_document key e data))
  = session_document key e data.
Proof.
  unfold keep_id. destruct (old !! id_field).
  - by rewrite delete_insert_eq, delete_id.
  - by rewrite delete_id.
Qed.

Lemma keep_id_has_sid old key e data :
  has_sid key (keep_id old (session_document key e data)).
Proof. unfold has_sid. by rewrite keep_id_lookup. Qed.

Lemma fresh_id_has_sid n key e data :
  has_sid key (<[id_field := VObjectId n]> (session_document key e data)).
Proof. unfold has_sid. by rewrite lookup_insert_ne. Qed.

Lemma keep_id_fresh n key1 e1 data1 new2 :
  keep_id (<[id_field := VObjectId n]> (session_document key1 e1 data1)) new2
  = <[id_field := VObjectId n]> new2.
Proof. unfold keep_id. by rewrite lookup_insert_eq. Qed.

(** ** Calls on a named collection *)

Lemma get_put_collection name c db :
  get_collection name (put_collection name c db) = c.
Proof.
  unfold put_collection. case_bool_decide as Hc; [done|].
  unfold get_collection. by rewrite lookup_insert_eq.
Qed.

Lemma get_put_collection_ne name name' c db :
  name' <> name ->
  get_collection name' (put_collection name c db) = get_collection name' db.
Proof.
  intros Hne. unfold put_collection. case_bool_decide as Hc; [done|].
  unfold get_collection. by rewrite lookup_insert_ne.
Qed.

Lemma put_get_collection name db :
  put_collection name (get_collection name db) db = db.
Proof. unfold put_collection. by rewrite bool_decide_eq_true_2. Qed.

Lemma put_put_collection name c1 c2 db :
  (c1 <> get_collection name db -> c2 <> get_collection name db) ->
  put_collection name c2 (put_collection name c1 db) = put_collection name c2 db.
Proof.
  intros Hgrow. unfold put_collection at 2.
  case_bool_decide as Hc1; [done|].
  unfold put_collection. rewrite (bool_decide_eq_false_2 _ (Hgrow Hc1)).
  assert (get_collection name (<[name := c1]> db) = c1) as ->.
  { unfold get_collection. by rewrite lookup_insert_eq. }
  case_bool_decide as Hc2.
  - by subst c2.
  - by rewrite insert_insert_eq.
Qed.

Section on_collection.
Context {A : Type} (name : string) (m : M A).

Lemma on_collection_unfold db :
  on_collection name m db
  = (eval m (get_collection name db),
     put_collection name (exec m (get_collection name db)) db).
Proof.
  unfold on_collection, eval, exec. by destruct (m (get_collection name db)).
Qed.

Lemma on_collection_eval db :
  eval (on_collection name m) db = eval m (get_collection name db).
Proof. unfold eval at 1. by rewrite on_collection_unfold. Qed.

Lemma on_collection_exec db :
  get_collection name (exec (on_collection name m) db)
  = exec m (get_collection name db).
Proof.
  unfold exec at 1. rewrite on_collection_unfold. apply get_put_collection.
Qed.

Lemma on_collection_unchanged db :
  exec m (get_collection name db) = get_collection name db ->
  on_collection name m db = (eval m (get_collection name db), db).
Proof.
  intros Hx. rewrite on_collection_unfold, Hx. by rewrite put_get_collection.
Qed.
End on_collection.

Lemma get_collection_ttl_pass name now db :
  get_collection name (ttl_pass now db) = ttl_monitor now (get_collection name db).
Proof.
  unfold get_collection, ttl_pass. rewrite lookup_fmap.
  by destruct (db !! name).
Qed.

Lemma get_collection_database_of self c :
  session_collection self (database_of self c) = c.
Proof.
  unfold session_collection, get_collection, database_of.
  by rewrite lookup_singleton_eq.
Qed.

(** ** The driver's calls under a sid *)

Lemma find_one_sid key c :
  find_one {[ sid_field := VStr key ]} c
  = (Ok (head (filter (has_sid key) (documents c))), c).
Proof.
  unfold find_one. by rewrite bson_encode_sid_filter, find_sid, list_find_head.
Qed.

Lemma delete_one_cases key c :
  (exists l1 old l2,
      documents c = l1 ++ old :: l2 /\ has_sid key old /\
      filter (has_sid key) l1 = [] /\
      delete_one {[ sid_field := VStr key ]} c
      = (Ok tt, set_documents c (l1 ++ l2)))
  \/ (filter (has_sid key) (documents c) = [] /\
      delete_one {[ sid_field := VStr key ]} c = (Ok tt, c)).
Proof.
  unfold delete_one. rewrite bson_encode_sid_filter, find_sid.
  destruct (list_find _ _) as [[i old]|] eqn:Hf.
  - left. destruct (list_find_split _ _ _ _ Hf) as (l1 & l2 & Hl & <- & Hold & Hl1).
    exists l1, old, l2. split_and!; [done..|].
    by rewrite Hl, delete_middle.
  - right. split; [by apply list_find_None_filter|done].
Qed.

Lemma replace_one_raises key e data oid c :
  encodable data = false ->
  replace_one {[ sid_field := VStr key ]} (session_document key e data) true oid c
  = (Raise OverflowError, c).
Proof.
  intros Henc. unfold replace_one.
  by rewrite bson_encode_sid_filter, bson_encode_session_document, Henc.
Qed.

Lemma replace_one_cases key e data oid c :
  encodable data = true ->
  let new := session_document key (e / 1000 * 1000) (bson_image data) in
  (exists l1 old l2,
      documents c = l1 ++ old :: l2 /\ has_sid key old /\
      filter (has_sid key) l1 = [] /\
      replace_one {[ sid_field := VStr key ]} (session_document key e data) true oid c
      = (Ok tt, set_documents c (l1 ++ keep_id old new :: l2)))
  \/ (filter (has_sid key) (documents c) = [] /\
      replace_one {[ sid_field := VStr key ]} (session_document key e data) true oid c
      = (Ok tt, set_documents c (documents c ++ [<[id_field := VObjectId oid]> new]))).
Proof.
  intros Henc new. unfold replace_one.
  rewrite bson_encode_sid_filter, bson_encode_session_document, Henc, find_sid.
  fold new.
  destruct (list_find _ _) as [[i old]|] eqn:Hf.
  - left. destruct (list_find_split _ _ _ _ Hf) as (l1 & l2 & Hl & <- & Hold & Hl1).
    exists l1, old, l2. split_and!; [done..|].
    by rewrite Hl, insert_middle_eq.
  - right. split; [by apply list_find_None_filter|done].
Qed.

(** ** What the three methods do *)

Section methods.
Variable self : MongoDBSessionInterface.

(** [_get_value] returns the [data] of the first document under the sid
    and leaves the database as it is. *)
Lemma get_value_head prefix key db :
  _get_value self prefix key db =
    (Ok match head (filter (has_sid key)
                      (documents (session_collection self db))) with
        | Some d => dict_get data_field d
        | None => VNone
        end, db).
Proof.
  unfold _get_value, BaseModel.find_one. rewrite bind_unfold.
  rewrite on_collection_unchanged by (by unfold exec; rewrite find_one_sid).
  unfold eval. rewrite find_one_sid. simpl. unfold ret, session_collection.
  destruct (head _) as [d|] eqn:Hd; [|done].
  assert (has_sid key d) as Hs.
  { apply head_Some_elem_of in Hd. by apply list_elem_of_filter in Hd as [? _]. }
  by rewrite (has_sid_truthy _ _ Hs).
Qed.

(** [_delete_key]: the first document under the sid goes, if there is one. *)
Lemma delete_key_cases key db :
  let c := session_collection self db in
  (exists l1 old l2,
      documents c = l1 ++ old :: l2 /\ has_sid key old /\
      filter (has_sid key) l1 = [] /\
      eval (_delete_key self key) db = Ok tt /\
      session_collection self (exec (_delete_key self key) db)
      = set_documents c (l1 ++ l2))
  \/ (filter (has_sid key) (documents c) = [] /\
      _delete_key self key db = (Ok tt, db)).
Proof.
  intros c. unfold _delete_key, BaseModel.delete_one, session_collection.
  destruct (delete_one_cases key c)
    as [(l1 & old & l2 & Hc & Hold & Hl1 & Heq)|[Hnone Heq]].
  - left. exists l1, old, l2. split_and!; [done..| |].
    + rewrite on_collection_eval. unfold eval. fold (session_collection self db).
      fold c. by rewrite Heq.
    + rewrite on_collection_exec. unfold exec. fold (session_collection self db).
      fold c. by rewrite Heq.
  - right. split; [done|].
    rewrite on_collection_unchanged; unfold exec, eval;
      fold (session_collection self db); fold c; by rewrite Heq.
Qed.

Lemma set_value_unfold utcnow oid key data db :
  _set_value self utcnow oid key data db =
    if bool_decide
         (-999999999 <= BaseSessionInterface.expiry (base self) / 86400
          <= 999999999)
       && bool_decide (datetime_min <= expiry_at self utcnow <= datetime_max)
    then
      on_collection (SessionModel self)
        (replace_one {[ sid_field := VStr key ]}
           (session_document key (expiry_at self utcnow) data) true oid) db
    else (Raise OverflowError, db).
Proof.
  unfold _set_value, BaseModel.replace_one. rewrite bind_unfold.
  unfold lift at 1, timedelta.
  destruct (bool_decide (_ <= _ / 86400 <= _)); simpl; [|done].
  rewrite bind_unfold. unfold lift, datetime_add. fold (expiry_at self utcnow).
  by destruct (bool_decide (datetime_min <= _ <= _)).
Qed.

(** [_set_value] on inputs out of range: [OverflowError], and nothing has
    reached the database. *)
Lemma set_value_raises utcnow oid key data db :
  writable self utcnow data = false ->
  _set_value self utcnow oid key data db = (Raise OverflowError, db).
Proof.
  unfold writable. rewrite set_value_unfold.
  destruct (bool_decide _ && bool_decide _); simpl; [|done].
  intros Henc.
  rewrite on_collection_unchanged;
    unfold exec, eval; by rewrite replace_one_raises.
Qed.

(** [_set_value] on inputs in range: either the first document under the
    sid is replaced in place, or there is none and the new document is
    appended. *)
Lemma set_value_cases utcnow oid key data db :
  writable self utcnow data = true ->
  let c := session_collection self db in
  let new := stored_document self utcnow key data in
  eval (_set_value self utcnow oid key data) db = Ok tt /\
  ((exists l1 old l2,
       documents c = l1 ++ old :: l2 /\ has_sid key old /\
       filter (has_sid key) l1 = [] /\
       session_collection self (exec (_set_value self utcnow oid key data) db)
       = set_documents c (l1 ++ keep_id old new :: l2))
   \/ (filter (has_sid key) (documents c) = [] /\
       session_collection self (exec (_set_value self utcnow oid key data) db)
       = set_documents c (documents c ++ [<[id_field := VObjectId oid]> new]))).
Proof.
  intros Hw c new. unfold writable in Hw.
  apply andb_true_iff in Hw as [Hrange Henc].
  set (m := replace_one {[ sid_field := VStr key ]}
              (session_document key (expiry_at self utcnow) data) true oid).
  assert (_set_value self utcnow oid key data db
          = on_collection (SessionModel self) m db) as Heq.
  { by rewrite set_value_unfold, Hrange. }
  assert (fst (_set_value self utcnow oid key data db) = fst (m c)) as He.
  { rewrite Heq. apply (on_collection_eval (SessionModel self) m db). }
  assert (session_collection self (snd (_set_value self utcnow oid key data db))
          = snd (m c)) as Hx.
  { rewrite Heq. apply (on_collection_exec (SessionModel self) m db). }
  unfold eval, exec. rewrite He, Hx. subst m.
  destruct (replace_one_cases key (expiry_at self utcnow) data oid c Henc)
    as [(l1 & old & l2 & Hc & Hold & Hl1 & Hr)|[Hnone Hr]];
    rewrite Hr; cbn [fst snd].
  - split; [reflexivity|]. left. exists l1, old, l2. by split_and!.
  - split; [reflexivity|]. right. by split.
Qed.

Lemma set_value_Ok_writable utcnow oid key data db :
  eval (_set_value self utcnow oid key data) db = Ok tt ->
  writable self utcnow data = true.
Proof.
  destruct (writable self utcnow data) eqn:Hw; [done|].
  unfold eval. by rewrite set_value_raises.
Qed.
End methods.

Section counts_and_frames.
Variable self : MongoDBSessionInterface.

(** The documents under [key] after [_set_value key]: as many as before,
    and one when there was none; a write that raises leaves them. *)
Lemma set_value_same_sid utcnow oid key data db :
  length (filter (has_sid key)
            (documents (session_collection self
                          (exec (_set_value self utcnow oid key data) db))))
  = if writable self utcnow data
    then Nat.max 1 (length (filter (has_sid key)
                              (documents (session_collection self db))))
    else length (filter (has_sid key) (documents (session_collection self db))).
Proof.
  destruct (writable self utcnow data) eqn:Hw.
  - destruct (set_value_cases self utcnow oid key data db Hw)
      as [_ [(l1 & old & l2 & Hc & Hold & Hl1 & ->)|[Hnone ->]]];
      cbn [documents set_documents].
    + rewrite Hc, !filter_app, Hl1. cbn [app].
      rewrite !filter_cons_True by (done || apply keep_id_has_sid).
      cbn [length]. lia.
    + rewrite filter_app, Hnone. cbn [app].
      by rewrite filter_cons_True by apply fresh_id_has_sid.
  - unfold exec. by rewrite set_value_raises.
Qed.

(** Frame: the documents outside the sid are the same list before and
    after. *)
Lemma set_value_frame utcnow oid key data db :
  filter (fun d => ~ has_sid key d)
    (documents (session_collection self
                  (exec (_set_value self utcnow oid key data) db)))
  = filter (fun d => ~ has_sid key d) (documents (session_collection self db)).
Proof.
  destruct (writable self utcnow data) eqn:Hw.
  - destruct (set_value_cases self utcnow oid key data db Hw)
      as [_ [(l1 & old & l2 & Hc & Hold & Hl1 & ->)|[Hnone ->]]];
      cbn [documents set_documents].
    + rewrite Hc, !filter_app.
      rewrite (filter_cons_False _ old) by (intros Hn; by apply Hn).
      rewrite (filter_cons_False _ (keep_id _ _))
        by (intros Hn; apply Hn, keep_id_has_sid).
      done.
    + rewrite filter_app, filter_cons_False, filter_nil, app_nil_r; [done|].
      intros Hn. apply Hn, fresh_id_has_sid.
  - unfold exec. by rewrite set_value_raises.
Qed.

Lemma set_value_indexes utcnow oid key data db :
  indexes (session_collection self (exec (_set_value self utcnow oid key data) db))
  = indexes (session_collection self db).
Proof.
  destruct (writable self utcnow data) eqn:Hw.
  - by destruct (set_value_cases self utcnow oid key data db Hw)
      as [_ [(l1 & old & l2 & Hc & Hold & Hl1 & ->)|[Hnone ->]]].
  - unfold exec. by rewrite set_value_raises.
Qed.

Lemma delete_key_tail key db :
  length (documents (session_collection self (exec (_delete_key self key) db))) =
    match stored key (session_collection self db) with
    | Some _ => Nat.pred (length (documents (session_collection self db)))
    | None => length (documents (session_collection self db))
    end /\
  filter (has_sid key)
    (documents (session_collection self (exec (_delete_key self key) db)))
  = tail (filter (has_sid key) (documents (session_collection self db))).
Proof.
  unfold stored. rewrite find_sid, list_find_head.
  destruct (delete_key_cases self key db)
    as [(l1 & old & l2 & Hc & Hold & Hl1 & _ & ->)|[Hnone Heq]].
  - cbn [documents set_documents]. rewrite Hc, !filter_app, Hl1.
    rewrite filter_cons_True by done. cbn [app head tail].
    split; [|done]. rewrite !length_app. cbn [length]. lia.
  - unfold exec. rewrite Heq. clear Heq. cbn [snd]. by rewrite Hnone.
Qed.

Lemma delete_key_same_sid key db :
  length (filter (has_sid key)
            (documents (session_collection self (exec (_delete_key self key) db))))
  = Nat.pred (length (filter (has_sid key)
                        (documents (session_collection self db)))).
Proof.
  destruct (delete_key_tail key db) as [_ ->].
  by destruct (filter (has_sid key) (documents (session_collection self db))).
Qed.

Lemma delete_key_frame key db :
  filter (fun d => ~ has_sid key d)
    (documents (session_collection self (exec (_delete_key self key) db)))
  = filter (fun d => ~ has_sid key d) (documents (session_collection self db)).
Proof.
  destruct (delete_key_cases self key db)
    as [(l1 & old & l2 & Hc & Hold & Hl1 & _ & ->)|[Hnone Heq]].
  - cbn [documents set_documents]. rewrite Hc, !filter_app.
    by rewrite filter_cons_False by (intros Hn; by apply Hn).
  - unfold exec. rewrite Heq. reflexivity.
Qed.

Lemma delete_key_indexes key db :
  indexes (session_collection self (exec (_delete_key self key) db))
  = indexes (session_collection self db).
Proof.
  destruct (delete_key_cases self key db)
    as [(l1 & old & l2 & Hc & Hold & Hl1 & _ & ->)|[Hnone Heq]];
    [reflexivity|].
  unfold exec. rewrite Heq. reflexivity.
Qed.

End counts_and_frames.

Lemma stored_head key c :
  stored key c = head (filter (has_sid key) (documents c)).
Proof. unfold stored. by rewrite find_sid, list_find_head. Qed.

(** The documents under another sid, read through the frame. *)
Lemma filter_other_sid key key' (ds : list document) :
  key <> key' ->
  filter (has_sid key') (filter (fun d => ~ has_sid key d) ds)
  = filter (has_sid key') ds.
Proof.
  intros Hne. apply filter_within. intros d Hd Hk.
  apply Hne. eapply has_sid_inj; eauto.
Qed.

Section other_sid.
Variable self : MongoDBSessionInterface.

Lemma set_value_other utcnow oid k key data db :
  k <> key ->
  filter (has_sid key)
    (documents (session_collection self
                  (exec (_set_value self utcnow oid k data) db)))
  = filter (has_sid key) (documents (session_collection self db)).
Proof.
  intros Hne.
  rewrite <-(filter_other_sid k key
               (documents (session_collection self (exec _ db)))) by done.
  by rewrite set_value_frame, filter_other_sid.
Qed.

Lemma delete_key_other k key db :
  k <> key ->
  filter (has_sid key)
    (documents (session_collection self (exec (_delete_key self k) db)))
  = filter (has_sid key) (documents (session_collection self db)).
Proof.
  intros Hne.
  rewrite <-(filter_other_sid k key
               (documents (session_collection self (exec _ db)))) by done.
  by rewrite delete_key_frame, filter_other_sid.
Qed.
End other_sid.

(** ** The start-up listener *)

(** The three outcomes of [create_index]. *)
Lemma create_index_cases field secs c :
  let ix := Index (String.append field "_1") field secs in
  (ix ∈ indexes c /\ create_index field secs c = (Ok (ix_name ix), c)) \/
  ((ix ∉ indexes c) /\ (ix_name ix ∈ (ix_name <$> indexes c)) /\
   create_index field secs c = (Raise (OperationFailure "IndexOptionsConflict"), c)) \/
  ((ix ∉ indexes c) /\ (ix_name ix ∉ (ix_name <$> indexes c)) /\
   create_index field secs c =
     (Ok (ix_name ix), Collection (documents c) (indexes c ++ [ix]))).
Proof.
  intros ix. unfold create_index. fold ix.
  destruct (decide (ix ∈ indexes c)) as [Hin|Hin].
  - left. by rewrite bool_decide_eq_true_2.
  - right. rewrite (bool_decide_eq_false_2 _ Hin).
    destruct (decide (ix_name ix ∈ ix_name <$> indexes c)) as [Hnm|Hnm].
    + left. by rewrite bool_decide_eq_true_2.
    + right. by rewrite bool_decide_eq_false_2.
Qed.

Lemma create_index_present field secs c :
  Index (String.append field "_1") field secs ∈ indexes c ->
  create_index field secs c = (Ok (String.append field "_1"), c).
Proof.
  intros Hin. unfold create_index. simpl. by rewrite bool_decide_eq_true_2.
Qed.

Lemma create_index_Ok field secs c n c' :
  create_index field secs c = (Ok n, c') ->
  n = String.append field "_1" /\
  Index (String.append field "_1") field secs ∈ indexes c' /\
  forall ix, ix ∈ indexes c -> ix ∈ indexes c'.
Proof.
  unfold create_index. simpl.
  destruct (bool_decide (_ ∈ indexes c)) eqn:Hin.
  { intros [= <- <-]. by apply bool_decide_eq_true in Hin. }
  destruct (bool_decide (_ ∈ ix_name <$> indexes c)); [done|].
  intros [= <- <-]. simpl. split_and!; [done|..].
  - apply elem_of_app. right. by left.
  - intros ix ?. apply elem_of_app. by left.
Qed.

Lemma create_index_Raise field secs c e c' :
  create_index field secs c = (Raise e, c') -> c' = c.
Proof.
  unfold create_index. simpl.
  repeat (destruct (bool_decide _)); by intros [= <-].
Qed.

(** [create_index] leaves the documents and never shortens the list of
    indexes; when it changes the collection, the list is longer. *)
Lemma create_index_grows field secs c :
  documents (exec (create_index field secs) c) = documents c /\
  (length (indexes c) <= length (indexes (exec (create_index field secs) c)))%nat /\
  (exec (create_index field secs) c <> c ->
   (length (indexes c) < length (indexes (exec (create_index field secs) c)))%nat).
Proof.
  unfold exec.
  destruct (create_index_cases field secs c)
    as [[_ ->]|[(_ & _ & ->)|(_ & _ & ->)]]; cbn [snd documents indexes].
  - split_and!; [done|lia|done].
  - split_and!; [done|lia|done].
  - rewrite length_app. cbn [length]. split_and!; [done|lia|lia].
Qed.

Lemma startup_documents_on c :
  documents (exec create_session_indexes c) = documents c.
Proof.
  unfold exec, create_session_indexes, bind, ret, create_index.
  repeat (destruct (bool_decide _); simpl; try done).
Qed.

Lemma fresh_name_not_elem (ix : index) (ixs : list index) :
  ix_name ix ∉ ix_name <$> ixs -> ix ∉ ixs.
Proof. intros Hn Hin. apply Hn. by apply list_elem_of_fmap_2. Qed.

(** On a collection with neither index, the two calls add the two. *)
Lemma create_session_indexes_fresh c :
  "sid_1" ∉ ix_name <$> indexes c ->
  "expiry_1" ∉ ix_name <$> indexes c ->
  create_session_indexes c =
    (Ok tt,
     Collection (documents c) ((indexes c ++ [sid_index]) ++ [expiry_index])).
Proof.
  intros Hs He. unfold create_session_indexes, bind, ret, create_index. simpl.
  rewrite (bool_decide_eq_false_2 (_ ∈ indexes c))
    by (by apply fresh_name_not_elem).
  rewrite (bool_decide_eq_false_2 ("sid_1" ∈ _)) by done. simpl.
  rewrite bool_decide_eq_false_2.
  2:{ intros [Hin|Hin%list_elem_of_singleton]%elem_of_app; [|done].
      by apply (fresh_name_not_elem expiry_index) in Hin. }
  rewrite bool_decide_eq_false_2; [done|].
  rewrite fmap_app. intros [Hin|Hin%list_elem_of_singleton]%elem_of_app; done.
Qed.

(** On a collection that has both, they change nothing. *)
Lemma create_session_indexes_present c :
  sid_index ∈ indexes c -> expiry_index ∈ indexes c ->
  create_session_indexes c = (Ok tt, c).
Proof.
  intros Hs He. unfold create_session_indexes, bind, ret, create_index. simpl.
  rewrite (bool_decide_eq_true_2 (_ ∈ indexes c)) by done. simpl.
  by rewrite bool_decide_eq_true_2.
Qed.

(** On any collection, a second run returns what the first run returned and
    leaves the collection as the first run left it. *)
Lemma create_session_indexes_idempotent c :
  create_session_indexes (exec create_session_indexes c)
  = create_session_indexes c.
Proof.
  unfold exec, create_session_indexes.
  rewrite !bind_unfold.
  destruct (create_index sid_field None c) as [[n1|e1] c1] eqn:E1; simpl.
  2:{ apply create_index_Raise in E1 as Hc. subst c1. by rewrite E1. }
  destruct (create_index_Ok _ _ _ _ _ E1) as (-> & Hs & Hmono).
  rewrite !bind_unfold.
  destruct (create_index expiry_field (Some 0) c1) as [[n2|e2] c2] eqn:E2; simpl.
  - destruct (create_index_Ok _ _ _ _ _ E2) as (-> & He & Hmono2).
    rewrite (create_index_present sid_field None c2) by auto.
    rewrite bind_unfold.
    by rewrite (create_index_present expiry_field (Some 0) c2) by auto.
  - apply create_index_Raise in E2 as Hc. subst c2.
    rewrite (create_index_present sid_field None c1) by auto.
    by rewrite bind_unfold, E2.
Qed.

Lemma create_session_indexes_mono c ix :
  ix ∈ indexes c -> ix ∈ indexes (exec create_session_indexes c).
Proof.
  intros Hix. unfold exec, create_session_indexes. rewrite bind_unfold.
  destruct (create_index sid_field None c) as [[n1|e1] c1] eqn:E1; simpl.
  2:{ by apply create_index_Raise in E1 as ->. }
  destruct (create_index_Ok _ _ _ _ _ E1) as (_ & _ & Hmono).
  rewrite bind_unfold.
  destruct (create_index expiry_field (Some 0) c1) as [[n2|e2] c2] eqn:E2; simpl.
  - destruct (create_index_Ok _ _ _ _ _ E2) as (_ & _ & Hmono2). auto.
  - apply create_index_Raise in E2 as ->. auto.
Qed.

(** The listener is its two calls on the collection of the model. *)
Lemma apply_session_indexes_unfold name db :
  apply_session_indexes name db
  = (eval create_session_indexes (get_collection name db),
     put_collection name (exec create_session_indexes (get_collection name db)) db).
Proof.
  unfold apply_session_indexes, create_session_indexes,
    BaseModel.create_index, eval, exec.
  rewrite !bind_unfold, on_collection_unfold.
  set (c := get_collection name db).
  pose proof (create_index_grows sid_field None c) as (_ & _ & Hgrow1).
  unfold eval, exec in *.
  destruct (create_index sid_field None c) as [[n1|e1] c1]; cbn [fst snd] in *;
    [|reflexivity].
  rewrite !bind_unfold, on_collection_unfold, get_put_collection.
  pose proof (create_index_grows expiry_field (Some 0) c1) as (_ & Hle & _).
  unfold eval, exec in *.
  destruct (create_index expiry_field (Some 0) c1) as [[n2|e2] c2];
    cbn [fst snd ret] in *.
  - f_equal. apply put_put_collection. fold c.
    intros Hc1 ->. specialize (Hgrow1 Hc1). lia.
  - f_equal. apply put_put_collection. fold c.
    intros Hc1 ->. specialize (Hgrow1 Hc1). lia.
Qed.

Lemma apply_session_indexes_idempotent name db :
  apply_session_indexes name (exec (apply_session_indexes name) db)
  = apply_session_indexes name db.
Proof.
  set (c := get_collection name db).
  set (c' := exec create_session_indexes c).
  set (db' := put_collection name c' db).
  assert (create_session_indexes c' = create_session_indexes c) as Hid
    by apply create_session_indexes_idempotent.
  assert (get_collection name db' = c') as Hget by apply get_put_collection.
  assert (exec (apply_session_indexes name) db = db') as ->.
  { unfold exec at 1. by rewrite apply_session_indexes_unfold. }
  rewrite !apply_session_indexes_unfold, Hget. fold c.
  unfold eval, exec. rewrite Hid. f_equal.
  change (snd (create_session_indexes c)) with c'.
  rewrite <-Hget at 1. apply put_get_collection.
Qed.

Lemma startup_collection self db :
  session_collection self (exec (apply_session_indexes (SessionModel self)) db)
  = exec create_session_indexes (session_collection self db).
Proof.
  unfold exec at 1. rewrite apply_session_indexes_unfold.
  apply get_put_collection.
Qed.

Lemma startup_documents self db :
  documents (session_collection self
               (exec (apply_session_indexes (SessionModel self)) db))
  = documents (session_collection self db).
Proof. by rewrite startup_collection, startup_documents_on. Qed.

(** ** Histories *)

Section histories.
Variable self : MongoDBSessionInterface.

Lemma step_other_sid ev key db :
  disturbs self key ev db = false ->
  forall d,
    stored key (session_collection self db) = Some d ->
    stored key (session_collection self (step self ev db)) = Some d.
Proof.
  intros Hq d. rewrite !stored_head.
  destruct ev as [utcnow oid k data|k| |now]; cbn [step disturbs] in *.
  - apply bool_decide_eq_false in Hq. by rewrite set_value_other.
  - apply bool_decide_eq_false in Hq. by rewrite delete_key_other.
  - by rewrite startup_documents.
  - intros Hd. rewrite stored_head, Hd in Hq.
    unfold session_collection. rewrite get_collection_ttl_pass.
    fold (session_collection self db).
    unfold ttl_monitor. cbn [documents set_documents].
    by apply head_filter_filter.
Qed.

Lemma run_other_sid evs key db d :
  undisturbed self key evs db = true ->
  stored key (session_collection self db) = Some d ->
  stored key (session_collection self (run self evs db)) = Some d.
Proof.
  revert db. induction evs as [|ev evs IH]; intros db; simpl; [done|].
  intros [Hq Hrest]%andb_true_iff Hd. apply negb_true_iff in Hq.
  apply IH; [done|]. by apply step_other_sid.
Qed.

(** What is stored under [key] right after a [_set_value key data] that
    returned. *)
Lemma set_value_stored utcnow oid key data db :
  writable self utcnow data = true ->
  exists d,
    stored key
      (session_collection self (exec (_set_value self utcnow oid key data) db))
    = Some d /\
    delete id_field d = stored_document self utcnow key data.
Proof.
  intros Hw. setoid_rewrite stored_head.
  destruct (set_value_cases self utcnow oid key data db Hw)
    as [_ [(l1 & old & l2 & Hc & Hold & Hl1 & ->)|[Hnone ->]]];
    cbn [documents set_documents].
  - eexists. rewrite filter_app, Hl1.
    rewrite filter_cons_True by apply keep_id_has_sid.
    split; [done|]. apply keep_id_body.
  - eexists. rewrite filter_app, Hnone.
    rewrite filter_cons_True by apply fresh_id_has_sid.
    split; [done|]. by rewrite delete_insert_eq, delete_id.
Qed.

Lemma step_unique ev db :
  sid_unique (session_collection self db) ->
  sid_unique (session_collection self (step self ev db)).
Proof.
  intros Hu key. specialize (Hu key) as Hk.
  destruct ev as [utcnow oid k data|k| |now]; cbn [step].
  - destruct (decide (k = key)) as [->|Hne].
    + rewrite set_value_same_sid. destruct (writable _ _ _); lia.
    + by rewrite set_value_other.
  - destruct (decide (k = key)) as [->|Hne].
    + rewrite delete_key_same_sid. lia.
    + by rewrite delete_key_other.
  - by rewrite startup_documents.
  - unfold session_collection. rewrite get_collection_ttl_pass.
    fold (session_collection self db).
    unfold ttl_monitor. cbn [documents set_documents].
    etrans; [apply length_filter_filter|done].
Qed.

Lemma run_unique evs db :
  sid_unique (session_collection self db) ->
  sid_unique (session_collection self (run self evs db)).
Proof.
  revert db. induction evs as [|ev evs IH]; intros db Hu; simpl; [done|].
  by apply IH, step_unique.
Qed.

Lemma get_after_set utcnow oid prefix key data db :
  writable self utcnow data = true ->
  eval (_get_value self prefix key) (exec (_set_value self utcnow oid key data) db)
  = Ok (bson_image data).
Proof.
  intros Hw.
  destruct (set_value_stored utcnow oid key data db Hw) as (d & Hd & Hbody).
  unfold eval. rewrite get_value_head, <-stored_head, Hd. cbn [fst].
  f_equal. unfold dict_get.
  rewrite <-(lookup_delete_ne d id_field data_field) by done.
  by rewrite Hbody.
Qed.
End histories.

Lemma sid_unique_empty self : sid_unique (session_collection self ∅).
Proof.
  intros key. unfold session_collection, get_collection.
  rewrite lookup_empty. simpl. lia.
Qed.

(** ** The code on concrete inputs *)

(** The scenario of the specification: write, read, overwrite, read,
    delete, read. *)
Example scenario_set_get :
  eval (_get_value example_self EmptyString "abc123")
    (run example_self [EvSet 0 1 "abc123" (VStr "user=42")] ∅)
  = Ok (VStr "user=42").
Proof. vm_compute. reflexivity. Qed.

Example scenario_overwrite_get :
  eval (_get_value example_self EmptyString "abc123")
    (run example_self
       [EvSet 0 1 "abc123" (VStr "user=42"); EvSet 1 2 "abc123" (VStr "user=43")]
       ∅)
  = Ok (VStr "user=43").
Proof. vm_compute. reflexivity. Qed.

Example scenario_delete_get :
  eval (_get_value example_self EmptyString "abc123")
    (run example_self
       [EvSet 0 1 "abc123" (VStr "user=42"); EvSet 1 2 "abc123" (VStr "user=43");
        EvDelete "abc123"]
       ∅)
  = Ok VNone.
Proof. vm_compute. reflexivity. Qed.

(** The stored document: the three fields and the engine's [_id]; the
    expiry is held in whole milliseconds, and an overwrite keeps the [_id]. *)
Example scenario_stored_document :
  documents
    (session_collection example_self
       (run example_self
          [EvSet 7 1 "abc123" (VStr "user=42"); EvSet 1007 2 "abc123" (VStr "user=43")]
          ∅))
  = [ {[ "_id" := VObjectId 1; "sid" := VStr "abc123";
         "expiry" := VDatetime 2592000001000; "data" := VStr "user=43" ]} ].
Proof. vm_compute. reflexivity. Qed.

(** Once the TTL index is there, a pass of the monitor at the stored expiry
    takes the record; without the index the monitor takes nothing. *)
Example ttl_pass_reclaims :
  eval (_get_value example_self EmptyString "abc123")
    (run example_self
       [EvStartup; EvSet 1007 1 "abc123" (VStr "user=42"); EvTTL 2592000001000]
       ∅)
  = Ok VNone.
Proof. vm_compute. reflexivity. Qed.

Example ttl_pass_before_expiry :
  eval (_get_value example_self EmptyString "abc123")
    (run example_self
       [EvStartup; EvSet 1007 1 "abc123" (VStr "user=42"); EvTTL 2592000000999]
       ∅)
  = Ok (VStr "user=42").
Proof. vm_compute. reflexivity. Qed.

Example ttl_pass_without_index :
  eval (_get_value example_self EmptyString "abc123")
    (run example_self
       [EvSet 1007 1 "abc123" (VStr "user=42"); EvTTL 2592000001000]
       ∅)
  = Ok (VStr "user=42").
Proof. vm_compute. reflexivity. Qed.

(** A configured expiry of [10 ** 12] seconds takes the date past the year
    9999: [_set_value] raises and nothing is written.  So does an [int] past
    eight bytes as data. *)
Example set_value_overflow :
  _set_value
    {| base := BaseSessionInterface.__init__ (10 ^ 12) EmptyString
                 default_cookie_name default_domain (VBool true)
                 default_sessioncookie default_samesite default_session_name;
       SessionModel := default_coll |}
    1700000000000000 1 "abc123" (VStr "user=42") ∅
  = (Raise OverflowError, ∅).
Proof. vm_compute. reflexivity. Qed.

Example set_value_big_int :
  _set_value example_self 1700000000000000 1 "abc123" (VInt (2 ^ 63)) ∅
  = (Raise OverflowError, ∅).
Proof. vm_compute. reflexivity. Qed.

(** [delete_one] removes one document: with two documents under a sid the
    second one is read afterwards. *)
Example delete_one_removes_first_only :
  eval (_get_value example_self EmptyString "k")
    (exec (_delete_key example_self "k")
       (database_of example_self two_under_one_sid))
  = Ok (VStr "b").
Proof. vm_compute. reflexivity. Qed.

(** The listener raises when an [expiry] index with other options exists;
    the [sid] index has been created by then. *)
Example startup_conflict :
  (eval (apply_session_indexes default_coll)
     (database_of example_self other_expiry_index),
   session_collection example_self
     (exec (apply_session_indexes default_coll)
        (database_of example_self other_expiry_index)))
  = (Raise (OperationFailure "IndexOptionsConflict"),
     Collection []
       [id_index; Index "expiry_1" "expiry" (Some 3600); sid_index]).
Proof. vm_compute. reflexivity. Qed.

(** [httponly=False] and [httponly=1] draw the warning, [True] does not. *)
Example init_httponly_False :
  snd <$> (match __init__ true {| listeners := [] |} default_coll default_domain
                   default_expiry (VBool false) default_cookie_name
                   default_sessioncookie default_samesite default_session_name
           with Ok r => Some r | Raise _ => None end)
  = Some [Warning httponly_message DeprecationWarning].
Proof. reflexivity. Qed.

Example init_httponly_one :
  snd <$> (match __init__ true {| listeners := [] |} default_coll default_domain
                   default_expiry (VInt 1) default_cookie_name
                   default_sessioncookie default_samesite default_session_name
           with Ok r => Some r | Raise _ => None end)
  = Some [Warning httponly_message DeprecationWarning].
Proof. reflexivity. Qed.

Example init_httponly_True :
  snd <$> (match __init__ true {| listeners := [] |} default_coll default_domain
                   default_expiry default_httponly default_cookie_name
                   default_sessioncookie default_samesite default_session_name
           with Ok r => Some r | Raise _ => None end)
  = Some [].
Proof. reflexivity. Qed.

(** ** The store methods *)

(** C1. After a [_set_value key data] that returned, [_get_value key]
    returns [data] itself, for as long as the history that follows does not
    overwrite the key (a [_set_value] on it), delete it (a [_delete_key] on
    it) or let the TTL monitor take its record as expired, the expiry being
    the one the collection holds.  [data] is any value the codec stores as
    it is: a string or bytes as the session layer writes them, and every
    other value but a date off the whole millisecond. *)
Theorem set_then_get_round_trip
    (self : MongoDBSessionInterface) (utcnow : Z) (oid : N) (prefix key : string)
    (data : value) (evs : list event) (db : database) :
  eval (_set_value self utcnow oid key data) db = Ok tt ->
  bson_image data = data ->
  undisturbed self key evs (exec (_set_value self utcnow oid key data) db) = true ->
  eval (_get_value self prefix key)
    (run self evs (exec (_set_value self utcnow oid key data) db)) = Ok data.
Proof.
  intros Hw%set_value_Ok_writable Himg Hq.
  destruct (set_value_stored self utcnow oid key data db Hw) as (d & Hd & Hbody).
  pose proof (run_other_sid self evs key _ d Hq Hd) as Hrun. clear Hq Hd.
  unfold eval. rewrite get_value_head, <-stored_head, Hrun. cbn [fst].
  f_equal. unfold dict_get.
  assert (d !! data_field = Some data) as ->; [|reflexivity].
  rewrite <-(lookup_delete_ne d id_field data_field) by done.
  rewrite Hbody. unfold stored_document. by rewrite Himg.
Qed.

Lemma set_then_get_round_trip_witness :
  eval (_get_value example_self EmptyString "abc123")
    (run example_self
       [EvSet 5 2 "other" (VStr "x"); EvStartup; EvTTL 2592000000500;
        EvDelete "other"]
       (exec (_set_value example_self 1007 1 "abc123" (VBytes [Byte.x75; Byte.x3d]))
          ∅))
  = Ok (VBytes [Byte.x75; Byte.x3d]).
Proof.
  apply (set_then_get_round_trip example_self 1007 1 EmptyString "abc123"
           (VBytes [Byte.x75; Byte.x3d])
           [EvSet 5 2 "other" (VStr "x"); EvStartup; EvTTL 2592000000500;
            EvDelete "other"] ∅).
  - vm_compute. reflexivity.
  - reflexivity.
  - vm_compute. reflexivity.
Defined.

(** C2. A [_set_value key data] that returns has computed the expiry
    [utcnow] plus the configured number of seconds, and the record it leaves
    under [key] is, the engine's [_id] apart, the document of exactly
    [sid = key], that expiry and [data] as it goes through the codec: three
    fields, the expiry in whole milliseconds, less than a millisecond below
    the computed one.  It replaces the record that was there without changing
    the number of documents, and inserts one document when there was none.
    A further write of the same data at another clock reading stores the
    expiry of that reading. *)
Theorem set_value_upsert
    (self : MongoDBSessionInterface) (utcnow : Z) (oid : N) (key : string)
    (data : value) (db : database) :
  eval (_set_value self utcnow oid key data) db = Ok tt ->
  let ttl := BaseSessionInterface.expiry (base self) in
  let db' := exec (_set_value self utcnow oid key data) db in
  timedelta ttl = Ok (ttl * 1000000) /\
  datetime_add utcnow (ttl * 1000000) = Ok (utcnow + ttl * 1000000) /\
  (exists d,
      stored key (session_collection self db') = Some d /\
      bson_encode
        {[ "sid" := VStr key;
           "expiry" := VDatetime (utcnow + ttl * 1000000);
           "data" := data ]} = Ok (delete "_id" d) /\
      forall f, f <> "_id" ->
        d !! f =
          if bool_decide (f = "sid") then Some (VStr key)
          else if bool_decide (f = "expiry")
               then Some (VDatetime ((utcnow + ttl * 1000000) / 1000 * 1000))
          else if bool_decide (f = "data") then Some (bson_image data)
          else None) /\
  (utcnow + ttl * 1000000) / 1000 * 1000 <= utcnow + ttl * 1000000
    < (utcnow + ttl * 1000000) / 1000 * 1000 + 1000 /\
  length (documents (session_collection self db')) =
    match stored key (session_collection self db) with
    | Some _ => length (documents (session_collection self db))
    | None => S (length (documents (session_collection self db)))
    end /\
  forall utcnow2 oid2,
    eval (_set_value self utcnow2 oid2 key data) db' = Ok tt ->
    exists d2,
      stored key
        (session_collection self
           (exec (_set_value self utcnow2 oid2 key data) db')) = Some d2 /\
      d2 !! "expiry" = Some (VDatetime ((utcnow2 + ttl * 1000000) / 1000 * 1000)).
Proof.
  intros Hw%set_value_Ok_writable ttl db'.
  assert (Hw' := Hw). unfold writable in Hw'. fold ttl in Hw'.
  apply andb_true_iff in Hw' as [[Htd Hdt]%andb_true_iff Henc].
  split_and!.
  - unfold timedelta. by rewrite Htd.
  - unfold datetime_add. unfold expiry_at in Hdt. fold ttl in Hdt.
    by rewrite Hdt.
  - destruct (set_value_stored self utcnow oid key data db Hw) as (d & Hd & Hbody).
    exists d. split; [exact Hd|]. split.
    + rewrite <-session_document_literal, bson_encode_session_document, Henc.
      change "_id" with id_field. by rewrite Hbody.
    + intros f Hf.
      rewrite <-(lookup_delete_ne d id_field f) by done.
      rewrite Hbody. apply session_document_lookup.
  - pose proof (Z.mul_div_le (utcnow + ttl * 1000000) 1000) as Hle.
    lia.
  - pose proof (Z.mod_pos_bound (utcnow + ttl * 1000000) 1000) as Hmod.
    pose proof (Z.div_mod (utcnow + ttl * 1000000) 1000) as Hdiv.
    lia.
  - subst db'. rewrite stored_head.
    destruct (set_value_cases self utcnow oid key data db Hw)
      as [_ [(l1 & old & l2 & Hc & Hold & Hl1 & ->)|[Hnone ->]]];
      cbn [documents set_documents].
    + rewrite Hc, filter_app, Hl1, filter_cons_True by done. cbn [app head].
      by rewrite !length_app.
    + rewrite Hnone. cbn [head]. rewrite length_app. cbn [length]. lia.
  - intros utcnow2 oid2 Hw2%set_value_Ok_writable.
    destruct (set_value_stored self utcnow2 oid2 key data db' Hw2)
      as (d & Hd & Hbody).
    exists d. split; [exact Hd|].
    rewrite <-(lookup_delete_ne d id_field "expiry") by done.
    by rewrite Hbody.
Qed.

Lemma set_value_upsert_witness :
  exists d,
    stored "abc123"
      (session_collection example_self
         (exec (_set_value example_self 1007 1 "abc123" (VStr "user=42")) ∅))
    = Some d /\
    d !! "expiry" = Some (VDatetime 2592000001000).
Proof.
  destruct (set_value_upsert example_self 1007 1 "abc123" (VStr "user=42") ∅)
    as (_ & _ & (d & Hd & _ & Hfields) & _).
  - vm_compute. reflexivity.
  - exists d. split; [exact Hd|]. by rewrite Hfields.
Defined.

(** C3. Two writes under one key and then a read, the second write having
    returned: the read returns the data of the second write, and the record
    under the key carries the fields of the second write, as the collection
    holds them, and nothing of the first. *)
Theorem set_set_get_last_write
    (self : MongoDBSessionInterface) (utcnow1 utcnow2 : Z) (oid1 oid2 : N)
    (prefix key : string) (data1 data2 : value) (db : database) :
  eval (_set_value self utcnow2 oid2 key data2)
    (exec (_set_value self utcnow1 oid1 key data1) db) = Ok tt ->
  bson_image data2 = data2 ->
  let db2 :=
    exec (_set_value self utcnow2 oid2 key data2)
      (exec (_set_value self utcnow1 oid1 key data1) db) in
  eval (_get_value self prefix key) db2 = Ok data2 /\
  exists d,
    stored key (session_collection self db2) = Some d /\
    delete "_id" d =
      {[ "sid" := VStr key;
         "expiry" :=
           VDatetime
             ((utcnow2 + BaseSessionInterface.expiry (base self) * 1000000)
              / 1000 * 1000);
         "data" := data2 ]}.
Proof.
  intros Hw%set_value_Ok_writable Himg db2. subst db2.
  set (db1 := exec (_set_value self utcnow1 oid1 key data1) db).
  split.
  - by rewrite get_after_set, Himg.
  - destruct (set_value_stored self utcnow2 oid2 key data2 db1 Hw)
      as (d & Hd & Hbody).
    exists d. split; [exact Hd|]. change "_id" with id_field.
    rewrite Hbody. unfold stored_document. rewrite Himg.
    apply session_document_literal.
Qed.

Lemma set_set_get_last_write_witness :
  eval (_get_value example_self EmptyString "abc123")
    (exec (_set_value example_self 1007 2 "abc123" (VStr "user=43"))
       (exec (_set_value example_self 7 1 "abc123" (VStr "user=42")) ∅))
  = Ok (VStr "user=43").
Proof.
  apply (set_set_get_last_write example_self 7 1007 1 2 EmptyString "abc123"
           (VStr "user=42") (VStr "user=43") ∅).
  - vm_compute. reflexivity.
  - reflexivity.
Defined.

(** C4. Whatever history of writes and deletes (and of index set-up and
    TTL passes) a collection that started empty has been through, no two of
    its documents share a sid. *)
Theorem one_record_per_sid
    (self : MongoDBSessionInterface) (evs : list event) (key : string) :
  (length (filter (fun d => d !! "sid" = Some (VStr key))
             (documents (session_collection self (run self evs ∅)))) <= 1)%nat.
Proof.
  apply (run_unique self evs ∅). apply sid_unique_empty.
Qed.

(** C5. In a collection with at most one record per sid, [_delete_key key]
    followed by [_get_value key] returns [None], whether or not there was a
    record under [key]. *)
Theorem delete_then_get_absent
    (self : MongoDBSessionInterface) (prefix key : string) (db : database) :
  sid_unique (session_collection self db) ->
  eval (_get_value self prefix key) (exec (_delete_key self key) db) = Ok VNone.
Proof.
  intros Hu. unfold eval. rewrite get_value_head. cbn [fst].
  pose proof (delete_key_same_sid self key db) as Hlen.
  specialize (Hu key).
  destruct (filter (has_sid key)
              (documents (session_collection self (exec (_delete_key self key) db))));
    [reflexivity|simpl in Hlen; lia].
Qed.

Lemma delete_then_get_absent_witness :
  eval (_get_value example_self EmptyString "abc123")
    (exec (_delete_key example_self "abc123")
       (run example_self
          [EvSet 0 1 "abc123" (VStr "user=42"); EvSet 1 2 "abc123" (VStr "user=43")]
          ∅))
  = Ok VNone.
Proof.
  apply (delete_then_get_absent example_self EmptyString "abc123").
  apply run_unique, sid_unique_empty.
Defined.

(** C6. When no document of the collection has the sid [key],
    [_delete_key key] returns without an exception and the database is
    what it was. *)
Theorem delete_absent_no_op
    (self : MongoDBSessionInterface) (key : string) (db : database) :
  (forall d, d ∈ documents (session_collection self db) ->
             d !! "sid" <> Some (VStr key)) ->
  _delete_key self key db = (Ok tt, db).
Proof.
  intros Hnone.
  destruct (delete_key_cases self key db)
    as [(l1 & old & l2 & Hc & Hold & _)|[_ Heq]]; [|exact Heq].
  destruct (Hnone old); [|exact Hold].
  rewrite Hc. apply elem_of_app. right. apply elem_of_cons. by left.
Qed.

Lemma delete_absent_no_op_witness :
  _delete_key example_self "nobody"
    (exec (_set_value example_self 0 1 "abc123" (VStr "user=42")) ∅)
  = (Ok tt, exec (_set_value example_self 0 1 "abc123" (VStr "user=42")) ∅).
Proof.
  apply (delete_absent_no_op example_self "nobody"). intros d Hd.
  assert (documents
            (session_collection example_self
               (exec (_set_value example_self 0 1 "abc123" (VStr "user=42")) ∅))
          = [<[id_field := VObjectId 1]>
               (stored_document example_self 0 "abc123" (VStr "user=42"))]) as Hdocs
    by (vm_compute; reflexivity).
  rewrite Hdocs in Hd. apply list_elem_of_singleton in Hd as ->.
  vm_compute. discriminate.
Defined.

(** C10. [_set_value key] and [_delete_key key] leave the documents whose
    sid is not [key] as they are: the list of those documents is the same
    before and after, document for document and in the same order. *)
Theorem other_sids_untouched
    (self : MongoDBSessionInterface) (utcnow : Z) (oid : N) (key : string)
    (data : value) (db : database) :
  let others (ds : list document) :=
    filter (fun d => d !! "sid" <> Some (VStr key)) ds in
  others (documents (session_collection self
                       (exec (_set_value self utcnow oid key data) db)))
    = others (documents (session_collection self db)) /\
  others (documents (session_collection self (exec (_delete_key self key) db)))
    = others (documents (session_collection self db)).
Proof.
  split; [apply set_value_frame|apply delete_key_frame].
Qed.

(** ** The constructor *)

(** C7. Whatever the caller passes as [httponly], an instance that
    [__init__] builds has handed the constant [True] to the base interface,
    and [__init__] has issued its deprecation warning, once, exactly when the
    argument is not [True].  ([__init__] builds no instance only when
    [sanic_motor] cannot be imported.) *)
Theorem httponly_hardcoded_true
    (sanic_motor : bool) (app : Sanic) (coll : string) (domain : option string)
    (expiry : Z) (httponly : value) (cookie_name : string)
    (sessioncookie : bool) (samesite : option string) (session_name : string) :
  match __init__ sanic_motor app coll domain expiry httponly cookie_name
          sessioncookie samesite session_name with
  | Ok (self, _, warnings) =>
      BaseSessionInterface.httponly (base self) = VBool true /\
      (httponly = VBool true -> warnings = []) /\
      (httponly <> VBool true ->
       warnings = [Warning httponly_message DeprecationWarning])
  | Raise e => sanic_motor = false /\ e = missing_dependency
  end.
Proof.
  unfold __init__. destruct sanic_motor; simpl; [|done].
  split; [done|].
  destruct httponly as [|[]| | | | |]; simpl; split; (done || congruence).
Qed.

(** C9. [_get_value] never looks at its [prefix] argument: with any two
    prefixes it returns the same value and leaves the same database; and
    the prefix an instance is constructed with is the empty string. *)
Theorem get_value_ignores_prefix
    (self : MongoDBSessionInterface) (prefix1 prefix2 key : string)
    (db : database) :
  _get_value self prefix1 key db = _get_value self prefix2 key db /\
  forall sanic_motor app coll domain expiry httponly cookie_name sessioncookie
         samesite session_name,
    match __init__ sanic_motor app coll domain expiry httponly cookie_name
            sessioncookie samesite session_name with
    | Ok (self', _, _) => BaseSessionInterface.prefix (base self') = EmptyString
    | Raise _ => True
    end.
Proof.
  split; [reflexivity|]. intros [] *; done.
Qed.

(** ** The start-up listener *)

Lemma run_listeners_snoc ls e (f : listener) ev db :
  run_listeners (ls ++ [(e, f)]) ev db =
    (_ <~ run_listeners ls ev ;; if bool_decide (e = ev) then f else ret tt) db.
Proof.
  revert db. induction ls as [|[e' f'] ls IH]; intros db; simpl.
  - unfold bind, ret. destruct (bool_decide (e = ev)); [|done].
    by destruct (f db) as [[[]|?] ?].
  - destruct (bool_decide (e' = ev)); [|apply IH].
    rewrite bind_assoc, !(bind_unfold f').
    destruct (f' db) as [[[]|?] db']; [apply IH|done].
Qed.

Lemma apply_session_indexes_fresh name db :
  "sid_1" ∉ ix_name <$> indexes (get_collection name db) ->
  "expiry_1" ∉ ix_name <$> indexes (get_collection name db) ->
  apply_session_indexes name db =
    (Ok tt,
     put_collection name
       (Collection (documents (get_collection name db))
          ((indexes (get_collection name db) ++ [sid_index]) ++ [expiry_index]))
       db).
Proof.
  intros Hs He. rewrite apply_session_indexes_unfold. unfold eval, exec.
  by rewrite create_session_indexes_fresh.
Qed.

Lemma apply_session_indexes_present name db :
  sid_index ∈ indexes (get_collection name db) ->
  expiry_index ∈ indexes (get_collection name db) ->
  apply_session_indexes name db = (Ok tt, db).
Proof.
  intros Hs He. rewrite apply_session_indexes_unfold. unfold eval, exec.
  rewrite create_session_indexes_present by done. cbn [fst snd].
  by rewrite put_get_collection.
Qed.

(** C8. [__init__] registers [apply_session_indexes], bound to the model
    of the instance, for the event [after_server_start].  Run on a database
    whose session collection has neither index, the listener creates two, in
    this order: an index on [sid] and an index on [expiry] with
    [expireAfterSeconds = 0]; the documents stay, and so does every other
    collection.  Run a second time it returns without an exception and the
    database is as the first run left it; on any database at all, a second
    run repeats the outcome of the first and changes nothing more. *)
Theorem startup_creates_two_indexes
    (app : Sanic) (coll : string) (domain : option string) (expiry : Z)
    (httponly : value) (cookie_name : string) (sessioncookie : bool)
    (samesite : option string) (session_name : string) (db : database) :
  "sid_1" ∉ ix_name <$> indexes (get_collection coll db) ->
  "expiry_1" ∉ ix_name <$> indexes (get_collection coll db) ->
  exists self app' warnings db1,
    __init__ true app coll domain expiry httponly cookie_name sessioncookie
      samesite session_name = Ok (self, app', warnings) /\
    SessionModel self = coll /\
    listeners app' =
      listeners app ++ [("after_server_start", apply_session_indexes coll)] /\
    (forall db0, trigger app' "after_server_start" db0 =
                   (_ <~ trigger app "after_server_start" ;;
                    apply_session_indexes coll) db0) /\
    apply_session_indexes coll db = (Ok tt, db1) /\
    indexes (get_collection coll db1) =
      indexes (get_collection coll db)
        ++ [Index "sid_1" "sid" None; Index "expiry_1" "expiry" (Some 0)] /\
    documents (get_collection coll db1) = documents (get_collection coll db) /\
    (forall name, name <> coll ->
                  get_collection name db1 = get_collection name db) /\
    apply_session_indexes coll db1 = (Ok tt, db1) /\
    forall db0,
      apply_session_indexes coll (exec (apply_session_indexes coll) db0)
      = apply_session_indexes coll db0.
Proof.
  intros Hs He. eexists _, _, _, _. split_and!.
  - reflexivity.
  - reflexivity.
  - reflexivity.
  - intros db0. unfold trigger. simpl. by rewrite run_listeners_snoc.
  - by apply apply_session_indexes_fresh.
  - rewrite get_put_collection. simpl. by rewrite <-app_assoc.
  - by rewrite get_put_collection.
  - intros name Hne. by apply get_put_collection_ne.
  - apply apply_session_indexes_present; rewrite get_put_collection; simpl.
    + apply elem_of_app. left. apply elem_of_app. right. by left.
    + apply elem_of_app. right. by left.
  - intros db0. apply apply_session_indexes_idempotent.
Qed.

Lemma startup_creates_two_indexes_witness :
  exists db1,
    apply_session_indexes default_coll ∅ = (Ok tt, db1) /\
    indexes (get_collection default_coll db1)
    = [id_index; sid_index; expiry_index] /\
    apply_session_indexes default_coll db1 = (Ok tt, db1).
Proof.
  destruct (startup_creates_two_indexes {| listeners := [] |} default_coll
              default_domain default_expiry default_httponly default_cookie_name
              default_sessioncookie default_samesite default_session_name ∅)
    as (_ & _ & _ & db1 & _ & _ & _ & _ & H1 & H2 & _ & _ & H3 & _).
  - vm_compute. intros H. inversion H; subst. inversion H2.
  - vm_compute. intros H. inversion H; subst. inversion H2.
  - exists db1. split_and!; [exact H1|exact H2|exact H3].
Defined.

(** * Further properties of the interface *)

(** ** The methods on a collection of known shape *)

Lemma delete_one_present key c l1 old l2 :
  documents c = l1 ++ old :: l2 -> has_sid key old ->
  filter (has_sid key) l1 = [] ->
  delete_one {[ sid_field := VStr key ]} c = (Ok tt, set_documents c (l1 ++ l2)).
Proof.
  intros Hc Hold Hl1. unfold delete_one.
  rewrite bson_encode_sid_filter, find_sid, Hc,
    (list_find_middle _ l1 l2 old) by done.
  by rewrite delete_middle.
Qed.

Lemma delete_one_absent key c :
  filter (has_sid key) (documents c) = [] ->
  delete_one {[ sid_field := VStr key ]} c = (Ok tt, c).
Proof.
  intros Hnone. unfold delete_one.
  by rewrite bson_encode_sid_filter, find_sid, filter_nil_list_find.
Qed.

Lemma delete_key_collection self key db :
  session_collection self (exec (_delete_key self key) db)
  = exec (delete_one {[ sid_field := VStr key ]}) (session_collection self db).
Proof. apply on_collection_exec. Qed.

(** ** How writes and deletes compose *)

(** X1. The last write wins: when the second of two writes under one key
    returns, the documents of the collection are, but for the engine's
    [_id], those the second write alone would have left, in the same order;
    the indexes are the same too. *)
Theorem set_set_absorbs
    (self : MongoDBSessionInterface) (utcnow1 utcnow2 : Z) (oid1 oid2 : N)
    (key : string) (data1 data2 : value) (db : database) :
  eval (_set_value self utcnow2 oid2 key data2)
    (exec (_set_value self utcnow1 oid1 key data1) db) = Ok tt ->
  delete "_id" <$>
    documents
      (session_collection self
         (exec (_set_value self utcnow2 oid2 key data2)
            (exec (_set_value self utcnow1 oid1 key data1) db)))
  = delete "_id" <$>
      documents
        (session_collection self (exec (_set_value self utcnow2 oid2 key data2) db))
  /\
  indexes
    (session_collection self
       (exec (_set_value self utcnow2 oid2 key data2)
          (exec (_set_value self utcnow1 oid1 key data1) db)))
  = indexes
      (session_collection self (exec (_set_value self utcnow2 oid2 key data2) db)).
Proof.
  intros Hw2%set_value_Ok_writable.
  split; [|by rewrite !set_value_indexes].
  destruct (writable self utcnow1 data1) eqn:Hw1.
  2:{ unfold exec at 2. by rewrite set_value_raises. }
  set (db1 := exec (_set_value self utcnow1 oid1 key data1) db).
  set (new1 := stored_document self utcnow1 key data1).
  set (new2 := stored_document self utcnow2 key data2).
  assert (forall n, delete id_field (<[id_field := VObjectId n]> new2) = new2)
    as Hfresh by (intros n; by rewrite delete_insert_eq, delete_id).
  assert (forall old, delete id_field (keep_id old new2) = new2)
    as Hkeep by (intros old; apply keep_id_body).
  change "_id" with id_field.
  destruct (set_value_cases self utcnow1 oid1 key data1 db Hw1)
    as [_ [(l1 & old & l2 & Hc & Hold & Hl1 & Hdb1)|[Hnone Hdb1]]];
    fold db1 new1 in Hdb1.
  - destruct (set_value_cases self utcnow2 oid2 key data2 db1 Hw2)
      as [_ [(k1 & old' & k2 & Hc' & Hold' & Hk1 & ->)|[Hnone' _]]].
    2:{ rewrite Hdb1 in Hnone'. cbn [documents set_documents] in Hnone'.
        rewrite filter_app, filter_cons_True in Hnone'
          by apply keep_id_has_sid.
        by destruct (filter (has_sid key) l1). }
    destruct (set_value_cases self utcnow2 oid2 key data2 db Hw2)
      as [_ [(j1 & old'' & j2 & Hc'' & Hold'' & Hj1 & ->)|[Hnone'' _]]].
    2:{ rewrite Hc, filter_app, filter_cons_True in Hnone'' by done.
        by destruct (filter (has_sid key) l1). }
    rewrite Hdb1 in Hc'. cbn [documents set_documents] in Hc' |- *.
    fold new2.
    assert (list_find (has_sid key) (l1 ++ keep_id old new1 :: l2)
            = Some (length l1, keep_id old new1)) as Hf1
      by (apply list_find_middle; [done|apply keep_id_has_sid]).
    assert (list_find (has_sid key) (k1 ++ old' :: k2) = Some (length k1, old'))
      as Hf1' by (by apply list_find_middle).
    rewrite Hc' in Hf1. rewrite Hf1' in Hf1. injection Hf1 as Hlen Hold1.
    assert (list_find (has_sid key) (l1 ++ old :: l2) = Some (length l1, old))
      as Hf by (by apply list_find_middle).
    assert (list_find (has_sid key) (j1 ++ old'' :: j2) = Some (length j1, old''))
      as Hf' by (by apply list_find_middle).
    rewrite Hc in Hc''. rewrite Hc'' in Hf. rewrite Hf' in Hf.
    injection Hf as Hlen' Hold2.
    apply app_inj_1 in Hc' as [-> [= _ ->]]; [|done].
    apply app_inj_1 in Hc'' as [-> [= _ ->]]; [|done].
    rewrite !fmap_app, !fmap_cons. by rewrite !Hkeep.
  - destruct (set_value_cases self utcnow2 oid2 key data2 db1 Hw2)
      as [_ [(k1 & old' & k2 & Hc' & Hold' & Hk1 & ->)|[Hnone' _]]].
    2:{ rewrite Hdb1 in Hnone'. cbn [documents set_documents] in Hnone'.
        rewrite filter_app, Hnone, filter_cons_True in Hnone'
          by apply fresh_id_has_sid.
        done. }
    destruct (set_value_cases self utcnow2 oid2 key data2 db Hw2)
      as [_ [(j1 & old'' & j2 & Hc'' & Hold'' & Hj1 & _)|[_ ->]]].
    { rewrite Hc'', filter_app, filter_cons_True in Hnone by done.
      by destruct (filter (has_sid key) j1). }
    rewrite Hdb1 in Hc'. cbn [documents set_documents] in Hc' |- *.
    fold new2.
    assert (list_find (has_sid key)
              (documents (session_collection self db)
                 ++ <[id_field := VObjectId oid1]> new1 :: [])
            = Some (length (documents (session_collection self db)),
                    <[id_field := VObjectId oid1]> new1)) as Hf1
      by (apply list_find_middle; [done|apply fresh_id_has_sid]).
    assert (list_find (has_sid key) (k1 ++ old' :: k2) = Some (length k1, old'))
      as Hf1' by (by apply list_find_middle).
    rewrite Hc' in Hf1. rewrite Hf1' in Hf1. injection Hf1 as Hlen Hold1.
    apply app_inj_1 in Hc' as [<- [= _ <-]]; [|done].
    rewrite !fmap_app, !fmap_cons. by rewrite Hkeep, Hfresh.
Qed.

Lemma set_set_absorbs_witness :
  delete "_id" <$>
    documents
      (session_collection example_self
         (exec (_set_value example_self 1007 2 "abc123" (VStr "user=43"))
            (exec (_set_value example_self 7 1 "abc123" (VStr "user=42")) ∅)))
  = delete "_id" <$>
      documents
        (session_collection example_self
           (exec (_set_value example_self 1007 2 "abc123" (VStr "user=43")) ∅)).
Proof.
  apply (set_set_absorbs example_self 7 1007 1 2 "abc123"
           (VStr "user=42") (VStr "user=43") ∅).
  vm_compute. reflexivity.
Defined.

(** X2. A delete takes back a write: writing under a key and then deleting
    that key leaves the documents that deleting the key right away would have
    left; when the key had no record, these are the documents from before the
    write. *)
Theorem set_then_delete_documents
    (self : MongoDBSessionInterface) (utcnow : Z) (oid : N) (key : string)
    (data : value) (db : database) :
  documents
    (session_collection self
       (exec (_delete_key self key) (exec (_set_value self utcnow oid key data) db)))
  = documents (session_collection self (exec (_delete_key self key) db)) /\
  (stored key (session_collection self db) = None ->
   documents
     (session_collection self
        (exec (_delete_key self key) (exec (_set_value self utcnow oid key data) db)))
   = documents (session_collection self db)).
Proof.
  assert (documents
            (session_collection self
               (exec (_delete_key self key)
                  (exec (_set_value self utcnow oid key data) db)))
          = documents (session_collection self (exec (_delete_key self key) db)))
    as Heq.
  { destruct (writable self utcnow data) eqn:Hw.
    2:{ unfold exec at 2. by rewrite set_value_raises. }
    rewrite !delete_key_collection. unfold exec at 1 3.
    destruct (set_value_cases self utcnow oid key data db Hw)
      as [_ [(l1 & old & l2 & Hc & Hold & Hl1 & ->)|[Hnone ->]]].
    - rewrite (delete_one_present key _ l1
                 (keep_id old (stored_document self utcnow key data)) l2)
        by (done || apply keep_id_has_sid).
      by rewrite (delete_one_present key (session_collection self db) l1 old l2).
    - rewrite (delete_one_present key _ (documents (session_collection self db))
                 (<[id_field := VObjectId oid]>
                    (stored_document self utcnow key data)) [])
        by (done || apply fresh_id_has_sid).
      rewrite (delete_one_absent key (session_collection self db)) by done.
      cbn [snd documents set_documents]. by rewrite app_nil_r. }
  split; [exact Heq|]. intros Hnone. rewrite Heq, delete_key_collection.
  unfold exec. rewrite delete_one_absent; [reflexivity|].
  rewrite stored_head in Hnone.
  by destruct (filter (has_sid key) (documents (session_collection self db))).
Qed.

Lemma set_then_delete_documents_witness :
  documents
    (session_collection example_self
       (exec (_delete_key example_self "abc123")
          (exec (_set_value example_self 7 1 "abc123" (VStr "user=42"))
             (database_of example_self two_under_one_sid))))
  = documents
      (session_collection example_self (database_of example_self two_under_one_sid)).
Proof.
  apply (set_then_delete_documents example_self 7 1 "abc123" (VStr "user=42")
           (database_of example_self two_under_one_sid)).
  vm_compute. reflexivity.
Defined.

(** ** Reading *)

(** X3. [_get_value] returns [None] in exactly two cases: no document has
    the sid, or the first document with the sid has no [data] field or has
    [None] there.  The caller cannot tell these apart. *)
Theorem get_value_None_iff
    (self : MongoDBSessionInterface) (prefix key : string) (db : database) :
  eval (_get_value self prefix key) db = Ok VNone <->
  (forall d, d ∈ documents (session_collection self db) ->
             d !! "sid" <> Some (VStr key)) \/
  (exists d, stored key (session_collection self db) = Some d /\
             (d !! "data" = None \/ d !! "data" = Some VNone)).
Proof.
  unfold eval. rewrite get_value_head, stored_head. cbn [fst].
  destruct (filter (has_sid key) (documents (session_collection self db)))
    as [|d ds] eqn:Hf; cbn [head].
  - split; [|done]. intros _. left. intros d Hd Hs.
    by apply (filter_nil_not_elem_of (has_sid key)
                (documents (session_collection self db)) d).
  - assert (has_sid key d /\ d ∈ documents (session_collection self db))
      as [Hs Hd].
    { apply (list_elem_of_filter (has_sid key)). rewrite Hf. by left. }
    unfold dict_get. change data_field with "data". split.
    + intros [= Hv]. right. exists d. split; [done|].
      destruct (d !! "data") as [v|]; [right|left]; simpl in *; congruence.
    + intros [Hnone|(d' & [= <-] & [Hn|Hn])].
      * by destruct (Hnone d Hd).
      * by rewrite Hn.
      * by rewrite Hn.
Qed.

(** X4. What is read under one key does not depend on writes and deletes
    under another key. *)
Theorem reads_of_other_keys
    (self : MongoDBSessionInterface) (utcnow : Z) (oid : N)
    (prefix key key' : string) (data : value) (db : database) :
  key <> key' ->
  eval (_get_value self prefix key') (exec (_set_value self utcnow oid key data) db)
  = eval (_get_value self prefix key') db /\
  eval (_get_value self prefix key') (exec (_delete_key self key) db)
  = eval (_get_value self prefix key') db.
Proof.
  intros Hne. unfold eval. rewrite !get_value_head. cbn [fst].
  by rewrite set_value_other, delete_key_other.
Qed.

Lemma reads_of_other_keys_witness :
  eval (_get_value example_self EmptyString "k")
    (exec (_delete_key example_self "abc123")
       (database_of example_self two_under_one_sid))
  = eval (_get_value example_self EmptyString "k")
      (database_of example_self two_under_one_sid).
Proof.
  apply (reads_of_other_keys example_self 0 0 EmptyString "abc123" "k" VNone
           (database_of example_self two_under_one_sid)).
  discriminate.
Defined.

(** X9. [_delete_key] removes at most one document: the collection loses
    one document when there is a record under the key and none otherwise,
    and of several documents under one sid all but the first stay. *)
Theorem delete_removes_one
    (self : MongoDBSessionInterface) (key : string) (db : database) :
  length (documents (session_collection self (exec (_delete_key self key) db))) =
    match stored key (session_collection self db) with
    | Some _ => Nat.pred (length (documents (session_collection self db)))
    | None => length (documents (session_collection self db))
    end /\
  filter (fun d => d !! "sid" = Some (VStr key))
    (documents (session_collection self (exec (_delete_key self key) db)))
  = tail (filter (fun d => d !! "sid" = Some (VStr key))
            (documents (session_collection self db))).
Proof. exact (delete_key_tail self key db). Qed.

(** X10. Documents and indexes are kept apart: the store methods never
    touch the indexes, [_get_value] changes nothing at all, and the start-up
    listener never touches a document nor drops an index, whether it returns
    or raises. *)
Theorem documents_and_indexes_apart
    (self : MongoDBSessionInterface) (utcnow : Z) (oid : N) (prefix key : string)
    (data : value) (db : database) :
  indexes (session_collection self (exec (_set_value self utcnow oid key data) db))
  = indexes (session_collection self db) /\
  indexes (session_collection self (exec (_delete_key self key) db))
  = indexes (session_collection self db) /\
  exec (_get_value self prefix key) db = db /\
  documents
    (session_collection self (exec (apply_session_indexes (SessionModel self)) db))
  = documents (session_collection self db) /\
  forall ix,
    ix ∈ indexes (session_collection self db) ->
    ix ∈ indexes
           (session_collection self
              (exec (apply_session_indexes (SessionModel self)) db)).
Proof.
  split_and!.
  - apply set_value_indexes.
  - apply delete_key_indexes.
  - unfold exec. by rewrite get_value_head.
  - apply startup_documents.
  - intros ix Hix. rewrite startup_collection.
    by apply create_session_indexes_mono.
Qed.

(** ** Uniqueness from any start *)

(** X11. A collection with at most one document per sid keeps that through
    any history of writes, deletes, index set-up and TTL passes, whatever
    else the collection holds at the start. *)
Theorem uniqueness_preserved
    (self : MongoDBSessionInterface) (evs : list event) (db : database) :
  (forall key,
      (length (filter (fun d => d !! "sid" = Some (VStr key))
                 (documents (session_collection self db))) <= 1)%nat) ->
  forall key,
    (length (filter (fun d => d !! "sid" = Some (VStr key))
               (documents (session_collection self (run self evs db)))) <= 1)%nat.
Proof. exact (run_unique self evs db). Qed.

Lemma uniqueness_preserved_witness :
  (length (filter (fun d => d !! "sid" = Some (VStr "abc123"))
             (documents
                (session_collection example_self
                   (run example_self
                      [EvSet 0 1 "abc123" (VStr "a"); EvSet 1 2 "abc123" (VStr "b")]
                      (database_of example_self
                         (Collection [ {[ "sid" := VStr "abc123" ]} ] [id_index]))))))
   <= 1)%nat.
Proof.
  apply (uniqueness_preserved example_self
           [EvSet 0 1 "abc123" (VStr "a"); EvSet 1 2 "abc123" (VStr "b")]
           (database_of example_self
              (Collection [ {[ "sid" := VStr "abc123" ]} ] [id_index]))).
  intros key. rewrite get_collection_database_of. simpl.
  apply (length_filter _ [_]).
Defined.

(** ** More on composition *)

(** X13. With at most one record per sid, deleting a key twice is deleting
    it once: the second [_delete_key] finds nothing and leaves the database
    as the first one left it. *)
Theorem delete_twice
    (self : MongoDBSessionInterface) (key : string) (db : database) :
  sid_unique (session_collection self db) ->
  _delete_key self key (exec (_delete_key self key) db)
  = (Ok tt, exec (_delete_key self key) db).
Proof.
  intros Hu.
  destruct (delete_key_cases self key (exec (_delete_key self key) db))
    as [(l1 & old & l2 & Hc & Hold & Hl1 & _)|[_ Heq]]; [|exact Heq].
  exfalso.
  pose proof (delete_key_same_sid self key db) as Hlen.
  rewrite Hc, filter_app, Hl1, filter_cons_True in Hlen by done.
  specialize (Hu key). cbn [app length] in Hlen. lia.
Qed.

Lemma delete_twice_witness :
  _delete_key example_self "abc123"
    (exec (_delete_key example_self "abc123")
       (run example_self [EvSet 0 1 "abc123" (VStr "user=42")] ∅))
  = (Ok tt,
     exec (_delete_key example_self "abc123")
       (run example_self [EvSet 0 1 "abc123" (VStr "user=42")] ∅)).
Proof.
  apply (delete_twice example_self "abc123").
  apply run_unique, sid_unique_empty.
Defined.

(** X14. Writes under two different keys can be made in either order:
    afterwards every key reads the same. *)
Theorem writes_commute_for_reads
    (self : MongoDBSessionInterface) (utcnow1 utcnow2 : Z) (oid1 oid2 : N)
    (prefix key1 key2 key : string) (data1 data2 : value) (db : database) :
  key1 <> key2 ->
  eval (_get_value self prefix key)
    (exec (_set_value self utcnow2 oid2 key2 data2)
       (exec (_set_value self utcnow1 oid1 key1 data1) db))
  = eval (_get_value self prefix key)
      (exec (_set_value self utcnow1 oid1 key1 data1)
         (exec (_set_value self utcnow2 oid2 key2 data2) db)).
Proof.
  intros Hne.
  assert (forall u o k k' dat db',
             k <> k' ->
             eval (_get_value self prefix k') (exec (_set_value self u o k dat) db')
             = eval (_get_value self prefix k') db') as Hframe.
  { intros u o k k' dat db' Hk. unfold eval. rewrite !get_value_head. cbn [fst].
    by rewrite set_value_other. }
  assert (forall u o k dat db1 db2,
             eval (_get_value self prefix k) db1
             = eval (_get_value self prefix k) db2 ->
             eval (_get_value self prefix k) (exec (_set_value self u o k dat) db1)
             = eval (_get_value self prefix k) (exec (_set_value self u o k dat) db2))
    as Hsame.
  { intros u o k dat db1 db2 Heq.
    destruct (writable self u dat) eqn:Hw.
    - by rewrite !get_after_set.
    - unfold exec. by rewrite !set_value_raises. }
  destruct (decide (key = key1)) as [->|Hk1].
  - rewrite (Hframe utcnow2 oid2 key2 key1) by done.
    apply Hsame. by rewrite Hframe.
  - destruct (decide (key = key2)) as [->|Hk2].
    + rewrite (Hframe utcnow1 oid1 key1 key2) by done.
      apply Hsame. by rewrite Hframe.
    + by rewrite !Hframe by done.
Qed.

Lemma writes_commute_for_reads_witness :
  eval (_get_value example_self EmptyString "a")
    (exec (_set_value example_self 2 2 "b" (VStr "y"))
       (exec (_set_value example_self 1 1 "a" (VStr "x")) ∅))
  = eval (_get_value example_self EmptyString "a")
      (exec (_set_value example_self 1 1 "a" (VStr "x"))
         (exec (_set_value example_self 2 2 "b" (VStr "y")) ∅)).
Proof.
  apply (writes_commute_for_reads example_self 1 2 1 2 EmptyString "a" "b" "a"
           (VStr "x") (VStr "y") ∅).
  discriminate.
Defined.

(** ** What a collection holds after a history *)

Section provenance.
Variable self : MongoDBSessionInterface.

Lemma written_mono evs evs' c :
  (forall ev, ev ∈ evs -> ev ∈ evs') -> written self evs c -> written self evs' c.
Proof.
  intros Hsub Hw d Hd. destruct (Hw d Hd) as (n & u & o & k & dat & Hin & ->).
  exists n, u, o, k, dat. auto.
Qed.

Lemma written_step evs ev db :
  written self evs (session_collection self db) ->
  written self (evs ++ [ev]) (session_collection self (step self ev db)).
Proof.
  intros Hw.
  assert (written self (evs ++ [ev]) (session_collection self db)) as Hw'.
  { eapply written_mono; [|done]. intros ? ?. apply elem_of_app. by left. }
  destruct ev as [utcnow oid k data|k| |now]; cbn [step].
  - destruct (writable self utcnow data) eqn:Hwr.
    2:{ unfold exec. by rewrite set_value_raises. }
    destruct (set_value_cases self utcnow oid k data db Hwr)
      as [_ [(l1 & old & l2 & Hc & Hold & Hl1 & ->)|[Hnone ->]]].
    + intros d [Hd|[->|Hd]%elem_of_cons]%elem_of_app.
      * apply Hw'. rewrite Hc. apply elem_of_app. by left.
      * destruct (Hw old) as (n & u & o & k' & dat & _ & ->).
        { rewrite Hc. apply elem_of_app. right. by left. }
        exists n, utcnow, oid, k, data. split.
        -- apply elem_of_app. right. by left.
        -- apply keep_id_fresh.
      * apply Hw'. rewrite Hc. apply elem_of_app. right. by right.
    + intros d [Hd|Hd%list_elem_of_singleton]%elem_of_app; [by apply Hw'|].
      subst d. exists oid, utcnow, oid, k, data. split; [|done].
      apply elem_of_app. right. by left.
  - destruct (delete_key_cases self k db)
      as [(l1 & old & l2 & Hc & Hold & Hl1 & _ & ->)|[Hnone Heq]].
    + intros d [Hd|Hd]%elem_of_app; apply Hw'; rewrite Hc; apply elem_of_app;
        [by left|right; by right].
    + unfold exec. rewrite Heq. exact Hw'.
  - intros d Hd. rewrite startup_documents in Hd. by apply Hw'.
  - intros d Hd. unfold session_collection in Hd.
    rewrite get_collection_ttl_pass in Hd.
    unfold ttl_monitor in Hd. cbn [documents set_documents] in Hd.
    apply list_elem_of_filter in Hd as [_ Hd]. by apply Hw'.
Qed.

Lemma written_run evs : forall pre db,
  written self pre (session_collection self db) ->
  written self (pre ++ evs) (session_collection self (run self evs db)).
Proof.
  induction evs as [|ev evs IH]; intros pre db Hw; simpl.
  - by rewrite app_nil_r.
  - replace (pre ++ ev :: evs) with ((pre ++ [ev]) ++ evs)
      by (by rewrite <-app_assoc).
    apply IH. by apply written_step.
Qed.

(** X5. After any history from the empty database, every document of the
    session collection is the document of a write of that history, as the
    collection holds it: its fields are the engine's [_id], the [sid], the
    [expiry] computed at that write in whole milliseconds and the [data] of
    that write through the codec, and nothing else. *)
Theorem stored_documents_are_writes (evs : list event) (d : document) :
  d ∈ documents (session_collection self (run self evs ∅)) ->
  exists n utcnow oid key data,
    EvSet utcnow oid key data ∈ evs /\
    d = {[ "_id" := VObjectId n;
           "sid" := VStr key;
           "expiry" :=
             VDatetime
               ((utcnow + BaseSessionInterface.expiry (base self) * 1000000)
                / 1000 * 1000);
           "data" := bson_image data ]}.
Proof.
  intros Hd.
  destruct (written_run evs [] ∅) with (d := d)
    as (n & u & o & k & dat & Hin & ->); [|done|].
  { intros d'. unfold session_collection, get_collection.
    rewrite lookup_empty. by intros ?%elem_of_nil. }
  exists n, u, o, k, dat. split; [done|].
  unfold stored_document. by rewrite session_document_literal.
Qed.
End provenance.

Lemma stored_documents_are_writes_witness :
  exists n utcnow oid key data,
    EvSet utcnow oid key data ∈ [EvSet 1007 1 "abc123" (VStr "user=42")] /\
    <[id_field := VObjectId 1]>
      (stored_document example_self 1007 "abc123" (VStr "user=42"))
    = {[ "_id" := VObjectId n; "sid" := VStr key;
         "expiry" :=
           VDatetime
             ((utcnow + BaseSessionInterface.expiry (base example_self) * 1000000)
              / 1000 * 1000);
         "data" := bson_image data ]}.
Proof.
  apply (stored_documents_are_writes example_self
           [EvSet 1007 1 "abc123" (VStr "user=42")]).
  vm_compute. left.
Defined.

(** ** Expiry *)

Lemma expired_by_index ixs ix now d :
  ix ∈ ixs -> past_due now d ix = true -> expired ixs now d = true.
Proof.
  intros Hin Hdue. unfold expired. apply existsb_exists.
  exists ix. split; [by apply list_elem_of_In|done].
Qed.

(** X8. With the [expiry] index of the start-up listener in place and at
    most one record per sid, a record whose write at [utcnow] returned does
    not outlive a TTL pass at or after [utcnow] plus the configured number
    of seconds: the key then reads as absent. *)
Theorem expired_record_reclaimed
    (self : MongoDBSessionInterface) (utcnow now : Z) (oid : N)
    (prefix key : string) (data : value) (db : database) :
  eval (_set_value self utcnow oid key data) db = Ok tt ->
  sid_unique (session_collection self db) ->
  Index "expiry_1" "expiry" (Some 0) ∈ indexes (session_collection self db) ->
  utcnow + BaseSessionInterface.expiry (base self) * 1000000 <= now ->
  eval (_get_value self prefix key)
    (ttl_pass now (exec (_set_value self utcnow oid key data) db))
  = Ok VNone.
Proof.
  intros Hw%set_value_Ok_writable Hu Hix Hnow.
  set (db1 := exec (_set_value self utcnow oid key data) db).
  assert (sid_unique (session_collection self db1)) as Hu1
    by apply (step_unique self (EvSet utcnow oid key data) db Hu).
  assert (indexes (session_collection self db1)
          = indexes (session_collection self db)) as Hixs
    by apply set_value_indexes.
  destruct (set_value_stored self utcnow oid key data db Hw) as (d & Hd & Hbody).
  fold db1 in Hd. rewrite stored_head in Hd.
  assert (filter (has_sid key) (documents (session_collection self db1)) = [d])
    as Hone.
  { specialize (Hu1 key).
    destruct (filter (has_sid key) (documents (session_collection self db1)))
      as [|d' [|d'' ds]]; simplify_eq/=; [done|lia]. }
  assert (expired (indexes (session_collection self db1)) now d = true) as Hexp.
  { rewrite Hixs. apply (expired_by_index _ _ _ _ Hix).
    unfold past_due. cbn [ix_expireAfterSeconds ix_field].
    rewrite <-(lookup_delete_ne d id_field "expiry") by done.
    rewrite Hbody. unfold stored_document. rewrite session_document_lookup.
    cbn [bool_decide decide_rel]. apply bool_decide_eq_true.
    pose proof (Z.mul_div_le (expiry_at self utcnow) 1000) as Hle.
    unfold expiry_at in *. lia. }
  unfold eval. rewrite get_value_head. cbn [fst].
  unfold session_collection. rewrite get_collection_ttl_pass.
  fold (session_collection self db1).
  unfold ttl_monitor. cbn [documents set_documents].
  rewrite filter_comm, Hone.
  rewrite filter_cons_False, filter_nil; [done|].
  by rewrite Hexp.
Qed.

Lemma expired_record_reclaimed_witness :
  eval (_get_value example_self EmptyString "abc123")
    (ttl_pass 2592000001007
       (exec (_set_value example_self 1007 1 "abc123" (VStr "user=42"))
          (exec (apply_session_indexes default_coll) ∅)))
  = Ok VNone.
Proof.
  apply (expired_record_reclaimed example_self 1007 2592000001007 1 EmptyString
           "abc123" (VStr "user=42") (exec (apply_session_indexes default_coll) ∅)).
  - vm_compute. reflexivity.
  - intros key. vm_compute. lia.
  - vm_compute. right. right. left.
  - vm_compute. discriminate.
Defined.

(** ** The start-up listener and the constructor *)

(** The listener run twice in a row is the listener run once. *)
Lemma apply_session_indexes_twice name db :
  (_ <~ apply_session_indexes name ;; apply_session_indexes name) db
  = apply_session_indexes name db.
Proof.
  rewrite bind_unfold.
  pose proof (apply_session_indexes_idempotent name db) as Hidem.
  unfold exec in Hidem.
  destruct (apply_session_indexes name db) as [[[]|e] db'] eqn:E;
    cbn [snd] in Hidem; [exact Hidem|reflexivity].
Qed.

(** X7. A second interface constructed on the same application for the same
    collection registers the listener once more, and start-up does what it
    did with one interface: the same outcome and the same database, on every
    database. *)
Theorem second_instance_same_startup
    (app : Sanic) (coll : string) (domain domain2 : option string)
    (expiry expiry2 : Z) (httponly httponly2 : value)
    (cookie_name cookie_name2 : string) (sessioncookie sessioncookie2 : bool)
    (samesite samesite2 : option string) (session_name session_name2 : string) :
  exists self1 app1 warnings1 self2 app2 warnings2,
    __init__ true app coll domain expiry httponly cookie_name sessioncookie
      samesite session_name = Ok (self1, app1, warnings1) /\
    __init__ true app1 coll domain2 expiry2 httponly2 cookie_name2
      sessioncookie2 samesite2 session_name2 = Ok (self2, app2, warnings2) /\
    length (listeners app2) = S (S (length (listeners app))) /\
    forall db,
      trigger app2 "after_server_start" db = trigger app1 "after_server_start" db.
Proof.
  eexists _, _, _, _, _, _. split_and!; [reflexivity|reflexivity|..].
  - simpl. rewrite !length_app. simpl. lia.
  - intros db. unfold trigger. simpl.
    rewrite (run_listeners_snoc (listeners app ++ _)), bind_unfold.
    rewrite run_listeners_snoc, bind_unfold. simpl.
    destruct (run_listeners (listeners app) "after_server_start" db)
      as [[[]|e] db1]; [|reflexivity].
    pose proof (apply_session_indexes_twice coll db1) as Htwice.
    rewrite bind_unfold in Htwice. exact Htwice.
Qed.

(** X12. The listener is tied to [after_server_start] alone: for any other
    event, firing it on the application after construction does what firing
    it before construction did. *)
Theorem listener_only_after_server_start
    (app : Sanic) (coll : string) (domain : option string) (expiry : Z)
    (httponly : value) (cookie_name : string) (sessioncookie : bool)
    (samesite : option string) (session_name : string)
    (ev : string) (db : database) :
  ev <> "after_server_start" ->
  exists self app' warnings,
    __init__ true app coll domain expiry httponly cookie_name sessioncookie
      samesite session_name = Ok (self, app', warnings) /\
    trigger app' ev db = trigger app ev db.
Proof.
  intros Hev. eexists _, _, _. split; [reflexivity|].
  unfold trigger. simpl. rewrite run_listeners_snoc, bind_unfold.
  rewrite bool_decide_eq_false_2 by done.
  by destruct (run_listeners (listeners app) ev db) as [[[]|e] db1].
Qed.

Lemma listener_only_after_server_start_witness :
  exists self app' warnings,
    __init__ true {| listeners := [] |} default_coll default_domain default_expiry
      default_httponly default_cookie_name default_sessioncookie default_samesite
      default_session_name = Ok (self, app', warnings) /\
    trigger app' "before_server_start" ∅
    = trigger {| listeners := [] |} "before_server_start" ∅.
Proof.
  apply (listener_only_after_server_start {| listeners := [] |} default_coll
           default_domain default_expiry default_httponly default_cookie_name
           default_sessioncookie default_samesite default_session_name
           "before_server_start" ∅).
  discriminate.
Defined.

(** ** Errors and other collections *)


Lemma lookup_put_collection_ne name name' c (db : database) :
  name' <> name -> put_collection name c db !! name' = db !! name'.
Proof.
  intros Hne. unfold put_collection. case_bool_decide; [done|].
  by rewrite lookup_insert_ne.
Qed.

(** X16. An interface works on the collection of its model and on no
    other: [_set_value], [_delete_key] and its start-up listener leave every
    other collection of the database as it is, existing or not. *)
Theorem other_collections_untouched
    (self : MongoDBSessionInterface) (utcnow : Z) (oid : N) (key : string)
    (data : value) (name : string) (db : database) :
  name <> SessionModel self ->
  exec (_set_value self utcnow oid key data) db !! name = db !! name /\
  exec (_delete_key self key) db !! name = db !! name /\
  exec (apply_session_indexes (SessionModel self)) db !! name = db !! name.
Proof.
  intros Hne. split_and!.
  - unfold exec. rewrite set_value_unfold.
    destruct (bool_decide _ && bool_decide _); [|reflexivity].
    rewrite on_collection_unfold. by apply lookup_put_collection_ne.
  - unfold exec, _delete_key, BaseModel.delete_one.
    rewrite on_collection_unfold. by apply lookup_put_collection_ne.
  - unfold exec. rewrite apply_session_indexes_unfold.
    by apply lookup_put_collection_ne.
Qed.

Lemma other_collections_untouched_witness :
  exec (_set_value example_self 7 1 "abc123" (VStr "user=42"))
    {[ "other" := two_under_one_sid ]} !! "other"
  = ({[ "other" := two_under_one_sid ]} : database) !! "other".
Proof.
  apply (other_collections_untouched example_self 7 1 "abc123" (VStr "user=42")
           "other" {[ "other" := two_under_one_sid ]}).
  discriminate.
Defined.
